(** * Five-card draw poker: the card model, the deck and the hand evaluator

    A shallow embedding of [poker.py].  Cards are the tuples [(rank, suit)]
    of the source, [sorted] is a stable insertion sort driven by the tuple
    comparison of Python, [Counter] is the insertion-ordered dictionary as an
    association list, and the methods that index a list ([x[0]], [x[-1]],
    [list.pop]) or raise live in a small error monad. *)

From Stdlib Require Import List ZArith Bool Arith Lia Permutation Sorted.
From Stdlib Require Ascii String DecimalString.
Import ListNotations.

Set Implicit Arguments.

(** ** Exceptions and results *)

Inductive exn : Type :=
| OutOfCards
| IndexError.

Inductive result (A : Type) : Type :=
| Ok (a : A)
| Raise (e : exn).

Arguments Ok {A} a.
Arguments Raise {A} e.

Definition bind {A B : Type} (m : result A) (k : A -> result B) : result B :=
  match m with
  | Ok a => k a
  | Raise e => Raise e
  end.

Notation "x <- m ;; k" := (bind m (fun x => k))
  (at level 61, m at next level, right associativity).

(** ** Card model *)

Inductive CardSuit : Type :=
| CLUBS | DIAMONDS | HEARTS | SPADES.

Inductive CardRank : Type :=
| DEUCE | TREY | FOUR | FIVE | SIX | SEVEN | EIGHT
| NINE | TEN | JACK | QUEEN | KING | ACE.

(** The [value] attribute of the enumeration members. *)
Definition CardSuit_value (s : CardSuit) : Z :=
  match s with
  | CLUBS => 1 | DIAMONDS => 2 | HEARTS => 3 | SPADES => 4
  end.

Definition CardSuit_eq_dec (a b : CardSuit) : {a = b} + {a <> b}.
Proof. decide equality. Defined.

(** [__lt__]: both operands are of the class, so the values decide. *)
Definition CardSuit_lt (a b : CardSuit) : bool :=
  (CardSuit_value a <? CardSuit_value b)%Z.

Definition CardRank_value (r : CardRank) : Z :=
  match r with
  | DEUCE => 2 | TREY => 3 | FOUR => 4 | FIVE => 5 | SIX => 6
  | SEVEN => 7 | EIGHT => 8 | NINE => 9 | TEN => 10 | JACK => 11
  | QUEEN => 12 | KING => 13 | ACE => 14
  end.

Definition CardRank_eq_dec (a b : CardRank) : {a = b} + {a <> b}.
Proof. decide equality. Defined.

Definition CardRank_lt (a b : CardRank) : bool :=
  (CardRank_value a <? CardRank_value b)%Z.

(** [class Card(tuple)]: the pair [(rank, suit)]. *)
Definition Card : Type := (CardRank * CardSuit)%type.

Definition rank (c : Card) : CardRank := fst c.
Definition suit (c : Card) : CardSuit := snd c.

Definition Card_eq_dec (a b : Card) : {a = b} + {a <> b}.
Proof. decide equality; [apply CardSuit_eq_dec | apply CardRank_eq_dec]. Defined.

(** Tuple comparison: the first position where the two tuples differ
    decides, through the [__lt__] of the items found there; equal tuples
    are not below one another. *)
Definition Card_lt (a b : Card) : bool :=
  if CardRank_eq_dec (fst a) (fst b)
  then if CardSuit_eq_dec (snd a) (snd b)
       then false
       else CardSuit_lt (snd a) (snd b)
  else CardRank_lt (fst a) (fst b).

(** ** Built-ins of the language used by the source *)

(** [sorted(xs)]: a stable sort that only asks [y < x].  Each item is put in
    front of the first item of the already sorted tail that is not below
    it, so equal items keep their order. *)
Fixpoint insert (x : Card) (l : list Card) : list Card :=
  match l with
  | [] => [x]
  | y :: l' => if Card_lt y x then y :: insert x l' else x :: l
  end.

Definition sorted (l : list Card) : list Card := fold_right insert [] l.

(** [sorted(xs, reverse=True)]: the list is reversed, sorted, and reversed
    back. *)
Definition sorted_reverse (l : list Card) : list Card := rev (sorted (rev l)).

(** [xs[0]] and [xs[-1]]. *)
Definition item_first {A : Type} (l : list A) : result A :=
  match l with
  | [] => Raise IndexError
  | x :: _ => Ok x
  end.

Fixpoint item_last {A : Type} (l : list A) : result A :=
  match l with
  | [] => Raise IndexError
  | [x] => Ok x
  | _ :: l' => item_last l'
  end.

(** [Counter(iterable)]: a dictionary in insertion order, here the list of
    its items.  Counting an item bumps its entry where it is, or appends a
    new entry. *)
Fixpoint counter_add (r : CardRank) (c : list (CardRank * nat)) : list (CardRank * nat) :=
  match c with
  | [] => [(r, 1)]
  | (k, n) :: c' =>
      if CardRank_eq_dec k r then (k, S n) :: c' else (k, n) :: counter_add r c'
  end.

Definition Counter (rs : list CardRank) : list (CardRank * nat) :=
  fold_left (fun c r => counter_add r c) rs [].

Definition items (c : list (CardRank * nat)) : list (CardRank * nat) := c.
Definition values (c : list (CardRank * nat)) : list nat := map snd c.

(** [{*xs}] for a list of suits: every suit of the list, once. *)
Definition set_of (l : list CardSuit) : list CardSuit := nodup CardSuit_eq_dec l.

(** [len(xs)]. *)
Definition len {A : Type} (l : list A) : Z := Z.of_nat (length l).

(** ** CardDeck *)

Record CardDeck : Type := { cards : list Card }.

(** [self.cards.pop()]: removes and returns the last card. *)
Definition pop (d : CardDeck) : result Card * CardDeck :=
  match rev (cards d) with
  | [] => (Raise IndexError, d)
  | c :: rest => (Ok c, {| cards := rev rest |})
  end.

Definition deal_card (d : CardDeck) : result Card * CardDeck :=
  if (len (cards d) - 1 >? 0)%Z then pop d else (Raise OutOfCards, d).

(** The body of [for i in range(number_of_cards)], with the cards dealt so
    far. *)
Fixpoint deal_loop (k : nat) (dealt_cards : list Card) (d : CardDeck)
  : result (list Card) * CardDeck :=
  match k with
  | O => (Ok dealt_cards, d)
  | S k' =>
      match pop d with
      | (Ok c, d') => deal_loop k' (dealt_cards ++ [c]) d'
      | (Raise e, d') => (Raise e, d')
      end
  end.

Definition deal_cards (number_of_cards : Z) (d : CardDeck)
  : result (list Card) * CardDeck :=
  if (len (cards d) - number_of_cards >? 0)%Z
  then deal_loop (Z.to_nat number_of_cards) [] d
  else (Raise OutOfCards, d).

(** ** PokerHandEvaluator *)

Definition ranks (cs : list Card) : list CardRank := map rank cs.

Definition high_card (cs : list Card) : result Card :=
  item_first (sorted_reverse cs).

Definition is_four_of_a_kind (cs : list Card) : option CardRank :=
  option_map fst
    (find (fun '(_, occurrences) => occurrences =? 4) (items (Counter (ranks cs)))).

Definition is_full_house (cs : list Card) : option (CardRank * CardRank) :=
  let '(three_matching_cards, two_matching_cards) :=
    fold_left
      (fun '(threes, twos) '(r, occurrences) =>
         if occurrences =? 3 then (threes ++ [r], twos)
         else if occurrences =? 2 then (threes, twos ++ [r])
         else (threes, twos))
      (items (Counter (ranks cs))) ([], []) in
  match three_matching_cards, two_matching_cards with
  | [t], [p] => Some (t, p)
  | _, _ => None
  end.

Definition is_flush (cs : list Card) : result (option CardRank) :=
  let suits_set := set_of (map suit cs) in
  if (len suits_set =? 1)%Z
  then c <- item_last (sorted cs) ;; Ok (Some (rank c))
  else Ok None.

Definition is_straight (cs : list Card) : result (option CardRank) :=
  let contains_duplicates :=
    existsb (fun occurrences => 1 <? occurrences) (values (Counter (ranks cs))) in
  if negb contains_duplicates then
    let sorted_hand_ranks := map rank (sorted cs) in
    hi <- item_last sorted_hand_ranks ;;
    lo <- item_first sorted_hand_ranks ;;
    if (CardRank_value hi - CardRank_value lo =? 4)%Z
    then Ok (Some hi)
    else Ok None
  else Ok None.

(** Truth value of what a check returns: [None] is false, and every member
    of the enumeration and every pair is true. *)
Definition truthy {A : Type} (o : option A) : bool :=
  match o with
  | Some _ => true
  | None => false
  end.

Definition is_straight_flush (cs : list Card) : result (option CardRank) :=
  s <- is_straight cs ;;
  if truthy s then
    f <- is_flush cs ;;
    if truthy f then c <- high_card cs ;; Ok (Some (rank c)) else Ok None
  else Ok None.

Definition is_three_of_a_kind (cs : list Card) : option CardRank :=
  option_map fst
    (find (fun '(_, occurrences) => occurrences =? 3) (items (Counter (ranks cs)))).

(** The loop shared by [is_one_pair] and [is_two_pairs]. *)
Definition total_pairs (cs : list Card) : list CardRank :=
  fold_left
    (fun acc '(r, occurrences) => if occurrences =? 2 then acc ++ [r] else acc)
    (items (Counter (ranks cs))) [].

Definition is_one_pair (cs : list Card) : option CardRank :=
  match total_pairs cs with
  | [r] => Some r
  | _ => None
  end.

Definition is_two_pairs (cs : list Card) : option (CardRank * CardRank) :=
  match total_pairs cs with
  | [r0; r1] => Some (r0, r1)
  | _ => None
  end.

(** ** PokerHand.evaluate *)

(** The line that [evaluate] prints, by its category and the ranks (or the
    card) that fill it. *)
Inductive Classification : Type :=
| StraightFlush (r : CardRank)
| FourOfAKind (r : CardRank)
| FullHouse (three two : CardRank)
| Flush (r : CardRank)
| Straight (r : CardRank)
| ThreeOfAKind (r : CardRank)
| TwoPair (first second : CardRank)
| OnePair (r : CardRank)
| HighCard (c : Card).

(** [evaluate] returns the lines it printed. *)
Definition evaluate (cs : list Card) : result (list Classification) :=
  straight_flush_rank <- is_straight_flush cs ;;
  match straight_flush_rank with
  | Some r => Ok [StraightFlush r]
  | None =>
    match is_four_of_a_kind cs with
    | Some r => Ok [FourOfAKind r]
    | None =>
      match is_full_house cs with
      | Some (t, p) => Ok [FullHouse t p]
      | None =>
        flush_rank <- is_flush cs ;;
        match flush_rank with
        | Some r => Ok [Flush r]
        | None =>
          straight_rank <- is_straight cs ;;
          match straight_rank with
          | Some r => Ok [Straight r]
          | None =>
            match is_three_of_a_kind cs with
            | Some r => Ok [ThreeOfAKind r]
            | None =>
              match is_two_pairs cs with
              | Some (r0, r1) => Ok [TwoPair r0 r1]
              | None =>
                match is_one_pair cs with
                | Some r => Ok [OnePair r]
                | None => c <- high_card cs ;; Ok [HighCard c]
                end
              end
            end
          end
        end
      end
    end
  end.

(** ** The rest of the card model: [__str__] *)

(** A [str], as the list of its code points. *)
Definition str : Type := list N.

(** [str(n)] for an [int]: the decimal digits, with a sign when negative. *)
Definition str_of_int (n : Z) : str :=
  map Ascii.N_of_ascii
      (String.list_ascii_of_string
         (DecimalString.NilZero.string_of_int (Z.to_int n))).

Definition CardSuit_str (s : CardSuit) : str :=
  match s with
  | CLUBS => [9827%N]
  | DIAMONDS => [9830%N]
  | HEARTS => [9829%N]
  | SPADES => [9824%N]
  end.

Definition CardRank_str (r : CardRank) : str :=
  match r with
  | JACK => [74%N]
  | QUEEN => [81%N]
  | KING => [75%N]
  | ACE => [65%N]
  | _ => str_of_int (CardRank_value r)
  end.

(** ["{}{}".format(self[0], self[1])]. *)
Definition Card_str (c : Card) : str := CardRank_str (fst c) ++ CardSuit_str (snd c).

(** ** The rest of [CardDeck]: [reset] and [__init__] *)

(** The members of the enumerations, in the order in which [for suit in
    CardSuit] and [for rank in CardRank] meet them. *)
Definition all_suits : list CardSuit := [CLUBS; DIAMONDS; HEARTS; SPADES].

Definition all_ranks : list CardRank :=
  [DEUCE; TREY; FOUR; FIVE; SIX; SEVEN; EIGHT; NINE; TEN; JACK; QUEEN; KING; ACE].

(** The cards that the two loops of [reset] append, before the shuffle. *)
Definition new_cards : list Card :=
  fold_left
    (fun acc s => fold_left (fun acc' r => acc' ++ [(r, s)]) all_ranks acc)
    all_suits [].

(** [reset], with the rearrangement that [random.shuffle] makes as a
    parameter. *)
Definition reset (shuffle : list Card -> list Card) : CardDeck :=
  {| cards := shuffle new_cards |}.

Definition CardDeck_init (shuffle : list Card -> list Card) : CardDeck :=
  reset shuffle.

(** ** The rest of [PokerHand]: [__init__] and [replace_cards] *)

(** [PokerHand(card_deck)]: the hand is its list [self.__cards]. *)
Definition PokerHand_init (d : CardDeck) : result (list Card) * CardDeck :=
  deal_cards 5 d.

(** [xs[i] = x]: a negative index counts from the end, and an index outside
    the list raises. *)
Definition setitem {A : Type} (l : list A) (i : Z) (x : A) : result (list A) :=
  let j := if (i <? 0)%Z then (i + len l)%Z else i in
  if ((0 <=? j) && (j <? len l))%Z
  then Ok (firstn (Z.to_nat j) l ++ x :: skipn (S (Z.to_nat j)) l)
  else Raise IndexError.

(** [replace_cards]: for every index the card is dealt first and stored
    second; an exception leaves the hand and the deck as they are then. *)
Fixpoint replace_cards (hand : list Card) (d : CardDeck) (card_indices_replace : list Z)
  : result unit * (list Card * CardDeck) :=
  match card_indices_replace with
  | [] => (Ok tt, (hand, d))
  | index :: rest =>
      match deal_card d with
      | (Raise e, d') => (Raise e, (hand, d'))
      | (Ok c, d') =>
          match setitem hand (index - 1) c with
          | Raise e => (Raise e, (hand, d'))
          | Ok hand' => replace_cards hand' d' rest
          end
      end
  end.

(** * Vocabulary of the specification *)

(** A card as a number: the rank decides, and the suit breaks ties. *)
Definition card_key (c : Card) : Z :=
  (4 * CardRank_value (rank c) + CardSuit_value (suit c))%Z.

Definition key_le (a b : Card) : Prop := (card_key a <= card_key b)%Z.

(** The greatest and the least card of a hand. *)
Definition is_max_card (cs : list Card) (c : Card) : Prop :=
  In c cs /\ forall x, In x cs -> key_le x c.

Definition is_min_card (cs : list Card) (c : Card) : Prop :=
  In c cs /\ forall x, In x cs -> key_le c x.

(** How often a rank occurs in a list of ranks. *)
Definition mult (rs : list CardRank) (r : CardRank) : nat :=
  count_occ CardRank_eq_dec rs r.

(** The distinct ranks of a list, in the order in which they first occur. *)
Fixpoint first_occ (rs : list CardRank) : list CardRank :=
  match rs with
  | [] => []
  | r :: rs' => r :: remove CardRank_eq_dec r (first_occ rs')
  end.

(** The position at which a rank first occurs ([length rs] when it does
    not occur). *)
Fixpoint first_pos (r : CardRank) (rs : list CardRank) : nat :=
  match rs with
  | [] => 0
  | x :: rs' => if CardRank_eq_dec x r then 0 else S (first_pos r rs')
  end.

(** Multiplicity of a rank in a hand. *)
Definition rank_mult (r : CardRank) (cs : list Card) : nat := mult (ranks cs) r.

(** [r] is the highest (lowest) rank among the cards of the hand. *)
Definition highest_rank (cs : list Card) (r : CardRank) : Prop :=
  In r (ranks cs) /\
  forall c, In c cs -> (CardRank_value (rank c) <= CardRank_value r)%Z.

Definition lowest_rank (cs : list Card) (r : CardRank) : Prop :=
  In r (ranks cs) /\
  forall c, In c cs -> (CardRank_value r <= CardRank_value (rank c))%Z.

(** All cards of the hand share one suit. *)
Definition one_suit (cs : list Card) : Prop :=
  exists s, forall c, In c cs -> suit c = s.

(** No rank repeats, and the highest and the lowest rank value are 4 apart. *)
Definition straight_condition (cs : list Card) : Prop :=
  NoDup (ranks cs) /\
  exists hi lo, highest_rank cs hi /\ lowest_rank cs lo /\
                (CardRank_value hi - CardRank_value lo = 4)%Z.

(** A check matches when it returns a result other than [None]. *)
Definition matches {A : Type} (m : result (option A)) : Prop :=
  exists a, m = Ok (Some a).

(** [r] is the one rank of the hand that occurs [n] times. *)
Definition only_rank_of_mult (n : nat) (cs : list Card) (r : CardRank) : Prop :=
  rank_mult r cs = n /\ forall r', rank_mult r' cs = n -> r' = r.

(** [a] and [b] are the two ranks of the hand that occur twice. *)
Definition two_pair_ranks (cs : list Card) (a b : CardRank) : Prop :=
  a <> b /\ rank_mult a cs = 2 /\ rank_mult b cs = 2 /\
  forall r, rank_mult r cs = 2 -> r = a \/ r = b.

(** [a] first occurs in the list before [b] does. *)
Definition before (rs : list CardRank) (a b : CardRank) : Prop :=
  first_pos a rs < first_pos b rs.

(** The pair that [is_two_pairs] returns, the other way round. *)
Definition swap_pair (o : option (CardRank * CardRank)) : option (CardRank * CardRank) :=
  match o with
  | Some (a, b) => Some (b, a)
  | None => None
  end.

(** A check together with the classification that its result stands for. *)
Definition lift {A : Type} (f : A -> Classification) (m : result (option A))
  : result (option Classification) :=
  o <- m ;; Ok (option_map f o).

(** The checks in the order of precedence; [high_card] comes last and
    always answers. *)
Definition precedence : list (list Card -> result (option Classification)) :=
  [ fun cs => lift StraightFlush (is_straight_flush cs);
    fun cs => lift FourOfAKind (Ok (is_four_of_a_kind cs));
    fun cs => lift (fun tp => FullHouse (fst tp) (snd tp)) (Ok (is_full_house cs));
    fun cs => lift Flush (is_flush cs);
    fun cs => lift Straight (is_straight cs);
    fun cs => lift ThreeOfAKind (Ok (is_three_of_a_kind cs));
    fun cs => lift (fun ab => TwoPair (fst ab) (snd ab)) (Ok (is_two_pairs cs));
    fun cs => lift OnePair (Ok (is_one_pair cs));
    fun cs => c <- high_card cs ;; Ok (Some (HighCard c)) ].

(** The result of the first check of a list that matches, later checks
    being left alone. *)
Fixpoint first_match (checks : list (list Card -> result (option Classification)))
         (cs : list Card) : result (option Classification) :=
  match checks with
  | [] => Ok None
  | check :: rest =>
      r <- check cs ;;
      match r with
      | Some c => Ok (Some c)
      | None => first_match rest cs
      end
  end.

(** The ranks of the lowest straight of poker, which the evaluator does not
    take for a straight. *)
Definition wheel_ranks : list CardRank := [ACE; DEUCE; TREY; FOUR; FIVE].

(** Hands of the test suite and of the specification. *)

Definition four_nines : list Card :=
  [(NINE, CLUBS); (NINE, SPADES); (NINE, DIAMONDS); (NINE, HEARTS); (JACK, HEARTS)].

Definition queen_high_hearts : list Card :=
  [(QUEEN, HEARTS); (JACK, HEARTS); (TEN, HEARTS); (NINE, HEARTS); (EIGHT, HEARTS)].

Definition seven_high_straight : list Card :=
  [(SEVEN, CLUBS); (SIX, SPADES); (FIVE, SPADES); (FOUR, HEARTS); (TREY, HEARTS)].

Definition treys_over_sixes : list Card :=
  [(TREY, CLUBS); (TREY, SPADES); (TREY, DIAMONDS); (SIX, CLUBS); (SIX, HEARTS)].

Definition sevens_and_fours : list Card :=
  [(SEVEN, CLUBS); (SEVEN, SPADES); (FOUR, DIAMONDS); (FOUR, HEARTS); (TREY, HEARTS)].

Definition fours_and_sevens : list Card :=
  [(FOUR, DIAMONDS); (FOUR, HEARTS); (SEVEN, CLUBS); (SEVEN, SPADES); (TREY, HEARTS)].

Definition wheel_hand : list Card :=
  [(FIVE, HEARTS); (ACE, CLUBS); (TREY, DIAMONDS); (DEUCE, SPADES); (FOUR, CLUBS)].

(** [k] hands made one after the other from one deck, as [main] makes
    them when another hand is asked for. *)
Fixpoint deal_hands (k : nat) (d : CardDeck) : result (list (list Card)) * CardDeck :=
  match k with
  | O => (Ok [], d)
  | S k' =>
      match PokerHand_init d with
      | (Raise e, d') => (Raise e, d')
      | (Ok hand, d') =>
          match deal_hands k' d' with
          | (Raise e, d'') => (Raise e, d'')
          | (Ok hands, d'') => (Ok (hand :: hands), d'')
          end
      end
  end.

(** The list [l] with [x] in the place of its item at position [p]. *)
Definition with_item {A : Type} (l : list A) (p : nat) (x : A) : list A :=
  firstn p l ++ x :: skipn (S p) l.

Definition king_high_clubs : list Card :=
  [(KING, CLUBS); (TEN, CLUBS); (SEVEN, CLUBS); (SIX, CLUBS); (FOUR, CLUBS)].

Definition three_sevens : list Card :=
  [(SEVEN, CLUBS); (SEVEN, SPADES); (SEVEN, DIAMONDS); (FOUR, HEARTS); (TREY, HEARTS)].

Definition pair_of_sevens : list Card :=
  [(SEVEN, CLUBS); (SEVEN, SPADES); (SIX, DIAMONDS); (FOUR, HEARTS); (TREY, HEARTS)].

Definition seven_high : list Card :=
  [(SEVEN, CLUBS); (FIVE, SPADES); (FOUR, HEARTS); (TREY, HEARTS); (DEUCE, SPADES)].

(** A deck of six cards, and the deck that a hand leaves of it. *)
Definition six_cards : CardDeck := {| cards := (ACE, SPADES) :: four_nines |}.

Definition one_card : CardDeck := {| cards := [(ACE, SPADES)] |}.

(** * Verification *)

(** ** The order of cards *)

Lemma CardSuit_value_bounds (s : CardSuit) : (1 <= CardSuit_value s <= 4)%Z.
Proof. destruct s; simpl; lia. Qed.

Lemma CardRank_value_bounds (r : CardRank) : (2 <= CardRank_value r <= 14)%Z.
Proof. destruct r; simpl; lia. Qed.

Lemma CardSuit_value_inj (a b : CardSuit) :
  CardSuit_value a = CardSuit_value b -> a = b.
Proof. destruct a, b; simpl; intro H; first [reflexivity | discriminate H]. Qed.

Lemma CardRank_value_inj (a b : CardRank) :
  CardRank_value a = CardRank_value b -> a = b.
Proof. destruct a, b; simpl; intro H; first [reflexivity | discriminate H]. Qed.

Lemma card_key_inj (a b : Card) : card_key a = card_key b -> a = b.
Proof.
  destruct a as [ra sa], b as [rb sb]; unfold card_key, rank, suit; cbn [fst snd]; intro H.
  pose proof (CardSuit_value_bounds sa).
  pose proof (CardSuit_value_bounds sb).
  assert (Hr : CardRank_value ra = CardRank_value rb) by lia.
  assert (Hs : CardSuit_value sa = CardSuit_value sb) by lia.
  apply CardRank_value_inj in Hr; apply CardSuit_value_inj in Hs.
  congruence.
Qed.

Lemma Card_lt_key (a b : Card) : Card_lt a b = (card_key a <? card_key b)%Z.
Proof.
  destruct a as [ra sa], b as [rb sb]; unfold Card_lt, card_key, rank, suit; cbn [fst snd].
  pose proof (CardSuit_value_bounds sa).
  pose proof (CardSuit_value_bounds sb).
  destruct (CardRank_eq_dec ra rb) as [->|Hr].
  - destruct (CardSuit_eq_dec sa sb) as [->|Hs].
    + symmetry; apply Z.ltb_irrefl.
    + unfold CardSuit_lt.
      destruct (Z.ltb_spec (CardSuit_value sa) (CardSuit_value sb));
        symmetry; [apply Z.ltb_lt | apply Z.ltb_ge]; lia.
  - unfold CardRank_lt.
    assert (CardRank_value ra <> CardRank_value rb)
      by (intro E; apply Hr, CardRank_value_inj, E).
    destruct (Z.ltb_spec (CardRank_value ra) (CardRank_value rb));
      symmetry; [apply Z.ltb_lt | apply Z.ltb_ge]; lia.
Qed.

Lemma card_key_rank (a b : Card) :
  (card_key a <= card_key b)%Z ->
  (CardRank_value (rank a) <= CardRank_value (rank b))%Z.
Proof.
  unfold card_key; intro H.
  pose proof (CardSuit_value_bounds (suit a)).
  pose proof (CardSuit_value_bounds (suit b)).
  lia.
Qed.

(** ** [sorted] *)

Lemma insert_perm (x : Card) (l : list Card) : Permutation (insert x l) (x :: l).
Proof.
  induction l as [|y l IH]; simpl.
  - reflexivity.
  - destruct (Card_lt y x).
    + rewrite IH. apply perm_swap.
    + reflexivity.
Qed.

Lemma sorted_perm (l : list Card) : Permutation (sorted l) l.
Proof.
  induction l as [|x l IH]; simpl.
  - reflexivity.
  - rewrite insert_perm. now apply perm_skip.
Qed.

Lemma insert_sorted (x : Card) (l : list Card) :
  StronglySorted key_le l -> StronglySorted key_le (insert x l).
Proof.
  induction 1 as [|y l Hs IH Hy]; simpl.
  - repeat constructor.
  - rewrite Card_lt_key.
    destruct (Z.ltb_spec (card_key y) (card_key x)) as [Hlt|Hge].
    + constructor; [exact IH|].
      rewrite insert_perm. constructor; [unfold key_le; lia | exact Hy].
    + constructor; [now constructor|].
      constructor; [exact Hge|].
      eapply Forall_impl; [|exact Hy].
      unfold key_le; intros; lia.
Qed.

Lemma sorted_sorted (l : list Card) : StronglySorted key_le (sorted l).
Proof.
  induction l as [|x l IH]; simpl; [constructor | now apply insert_sorted].
Qed.

(** Cards that are equal for the order are the same card, so every sort
    returns the list that [sorted] returns. *)
Lemma sorted_unique (l l' : list Card) :
  Permutation l' l -> StronglySorted key_le l' -> l' = sorted l.
Proof.
  intros Hp Hs.
  assert (Hq : Permutation l' (sorted l)) by (rewrite Hp; symmetry; apply sorted_perm).
  pose proof (sorted_sorted l) as Hs'. clear Hp.
  revert Hq Hs'. generalize (sorted l) as m.
  induction Hs as [|x l1 Hs1 IH Hx]; intros m Hq Hm.
  - apply Permutation_nil in Hq. now subst.
  - destruct Hm as [|y l2 Hs2 Hy].
    + apply Permutation_sym, Permutation_nil in Hq. discriminate.
    + assert (x = y).
      { apply card_key_inj. rewrite Forall_forall in Hx, Hy.
        assert (Hxy : key_le y x).
        { destruct (Permutation_in x Hq (or_introl eq_refl)) as [->|Hin];
            [unfold key_le; lia | now apply Hy]. }
        assert (Hyx : key_le x y).
        { destruct (Permutation_in y (Permutation_sym Hq) (or_introl eq_refl))
            as [->|Hin]; [unfold key_le; lia | now apply Hx]. }
        unfold key_le in *. lia. }
      subst y. f_equal. apply IH; [|exact Hs2].
      now apply Permutation_cons_inv in Hq.
Qed.

(** ** [xs[0]] and [xs[-1]] *)

Lemma item_last_app {A : Type} (l : list A) (x : A) : item_last (l ++ [x]) = Ok x.
Proof.
  induction l as [|y l IH]; simpl; [reflexivity|].
  destruct (l ++ [x]) eqn:E; [now destruct l | exact IH].
Qed.

Lemma item_first_rev {A : Type} (l : list A) : item_first (rev l) = item_last l.
Proof.
  destruct (rev l) as [|x r] eqn:E.
  - apply (f_equal (@rev A)) in E. rewrite rev_involutive in E. now subst.
  - apply (f_equal (@rev A)) in E. rewrite rev_involutive in E. subst l.
    simpl. now rewrite item_last_app.
Qed.

Lemma item_last_map {A B : Type} (f : A -> B) (l : list A) :
  item_last (map f l) = x <- item_last l ;; Ok (f x).
Proof.
  induction l as [|y l IH]; simpl; [reflexivity|].
  destruct l; simpl in *; [reflexivity | exact IH].
Qed.

Lemma item_first_map {A B : Type} (f : A -> B) (l : list A) :
  item_first (map f l) = x <- item_first l ;; Ok (f x).
Proof. now destruct l. Qed.

Lemma item_last_sorted_spec (l : list Card) (c : Card) :
  StronglySorted key_le l -> item_last l = Ok c ->
  In c l /\ forall x, In x l -> key_le x c.
Proof.
  induction 1 as [|y l Hs IH Hy]; simpl; [discriminate|].
  destruct l as [|z l'].
  - intros [= ->]. split; [now left|].
    intros x [->|[]]; unfold key_le; lia.
  - intro E. destruct (IH E) as [Hin Hmax]. split; [now right|].
    intros x [->|Hx]; [|now apply Hmax].
    rewrite Forall_forall in Hy. now apply Hy.
Qed.

Lemma item_first_sorted_spec (l : list Card) (c : Card) :
  StronglySorted key_le l -> item_first l = Ok c ->
  In c l /\ forall x, In x l -> key_le c x.
Proof.
  destruct 1 as [|y l Hs Hy]; simpl; [discriminate|].
  intros [= ->]. split; [now left|].
  intros x [->|Hx]; [unfold key_le; lia|].
  rewrite Forall_forall in Hy. now apply Hy.
Qed.

Lemma item_last_nonempty {A : Type} (l : list A) :
  l <> [] -> exists x, item_last l = Ok x.
Proof.
  induction l as [|y l IH]; [congruence|]. intros _.
  destruct l as [|z l']; [now exists y|].
  simpl in *. apply IH. discriminate.
Qed.

Lemma sorted_nonempty (cs : list Card) : cs <> [] -> sorted cs <> [].
Proof.
  intros H E. apply H. apply Permutation_nil.
  rewrite <- E. apply sorted_perm.
Qed.

Lemma item_last_sorted (cs : list Card) :
  cs <> [] -> exists c, item_last (sorted cs) = Ok c /\ is_max_card cs c.
Proof.
  intro H. destruct (item_last_nonempty (sorted_nonempty H)) as [c Hc].
  exists c. split; [exact Hc|].
  destruct (item_last_sorted_spec (sorted_sorted cs) Hc) as [Hin Hmax].
  split.
  - eapply Permutation_in; [apply sorted_perm | exact Hin].
  - intros x Hx. apply Hmax.
    eapply Permutation_in; [symmetry; apply sorted_perm | exact Hx].
Qed.

Lemma item_first_sorted (cs : list Card) :
  cs <> [] -> exists c, item_first (sorted cs) = Ok c /\ is_min_card cs c.
Proof.
  intro H. pose proof (sorted_nonempty H) as Hne.
  destruct (sorted cs) as [|c l] eqn:E; [congruence|].
  exists c. split; [reflexivity|].
  assert (Hs : StronglySorted key_le (c :: l)) by (rewrite <- E; apply sorted_sorted).
  destruct (item_first_sorted_spec Hs eq_refl) as [Hin Hmin].
  split.
  - eapply Permutation_in; [apply sorted_perm | rewrite E; exact Hin].
  - intros x Hx. apply Hmin. rewrite <- E.
    eapply Permutation_in; [symmetry; apply sorted_perm | exact Hx].
Qed.

Lemma high_card_max (cs : list Card) :
  cs <> [] -> exists c, high_card cs = Ok c /\ is_max_card cs c.
Proof.
  intro H. unfold high_card, sorted_reverse. rewrite item_first_rev.
  assert (Hr : rev cs <> []).
  { intro E. apply H. apply (f_equal (@rev Card)) in E.
    now rewrite rev_involutive in E. }
  destruct (item_last_sorted Hr) as [c [Hc [Hin Hmax]]].
  exists c. split; [exact Hc|]. split.
  - now apply in_rev.
  - intros x Hx. apply Hmax. now apply in_rev in Hx.
Qed.

Lemma is_max_card_unique (cs : list Card) (a b : Card) :
  is_max_card cs a -> is_max_card cs b -> a = b.
Proof.
  intros [Ha Hma] [Hb Hmb]. apply card_key_inj.
  specialize (Hma b Hb). specialize (Hmb a Ha). unfold key_le in *. lia.
Qed.

Lemma is_min_card_unique (cs : list Card) (a b : Card) :
  is_min_card cs a -> is_min_card cs b -> a = b.
Proof.
  intros [Ha Hma] [Hb Hmb]. apply card_key_inj.
  specialize (Hma b Hb). specialize (Hmb a Ha). unfold key_le in *. lia.
Qed.

(** ** [Counter] *)

Lemma in_first_occ (rs : list CardRank) (x : CardRank) :
  In x (first_occ rs) <-> In x rs.
Proof.
  induction rs as [|r rs IH]; simpl; [tauto|].
  split.
  - intros [->|H]; [now left|]. apply in_remove in H. right. now apply IH.
  - intros [->|H]; [now left|].
    destruct (CardRank_eq_dec r x) as [->|Hn]; [now left|].
    right. apply in_in_remove; [congruence | now apply IH].
Qed.

Lemma NoDup_remove (l : list CardRank) (r : CardRank) :
  NoDup l -> NoDup (remove CardRank_eq_dec r l).
Proof.
  induction 1 as [|x l Hx Hl IH]; simpl; [constructor|].
  destruct (CardRank_eq_dec r x); [exact IH|].
  constructor; [|exact IH].
  intro H. apply in_remove in H. tauto.
Qed.

Lemma NoDup_first_occ (rs : list CardRank) : NoDup (first_occ rs).
Proof.
  induction rs as [|r rs IH]; simpl; constructor.
  - apply remove_In.
  - now apply NoDup_remove.
Qed.

Lemma first_occ_snoc (rs : list CardRank) (r : CardRank) :
  first_occ (rs ++ [r]) =
  if in_dec CardRank_eq_dec r rs then first_occ rs else first_occ rs ++ [r].
Proof.
  induction rs as [|x rs IH]; simpl.
  - reflexivity.
  - rewrite IH.
    destruct (CardRank_eq_dec x r) as [->|Hn].
    + destruct (in_dec CardRank_eq_dec r rs) as [Hi|Hi]; [reflexivity|].
      rewrite remove_app. simpl.
      destruct (CardRank_eq_dec r r); [|congruence].
      now rewrite app_nil_r.
    + destruct (in_dec CardRank_eq_dec r rs) as [Hi|Hi]; [reflexivity|].
      rewrite remove_app. simpl.
      destruct (CardRank_eq_dec x r); [congruence|reflexivity].
Qed.

Lemma mult_snoc (rs : list CardRank) (r k : CardRank) :
  mult (rs ++ [r]) k = if CardRank_eq_dec k r then S (mult rs k) else mult rs k.
Proof.
  unfold mult. rewrite count_occ_app. simpl.
  destruct (CardRank_eq_dec r k) as [->|Hn].
  - destruct (CardRank_eq_dec k k); [lia|congruence].
  - destruct (CardRank_eq_dec k r); [congruence|lia].
Qed.

Lemma counter_add_map (f : CardRank -> nat) (l : list CardRank) (r : CardRank) :
  NoDup l ->
  counter_add r (map (fun k => (k, f k)) l) =
  map (fun k => (k, if CardRank_eq_dec k r then S (f k) else f k)) l
  ++ (if in_dec CardRank_eq_dec r l then [] else [(r, 1)]).
Proof.
  induction 1 as [|x l Hx Hl IH]; simpl.
  - reflexivity.
  - destruct (CardRank_eq_dec x r) as [->|Hn].
    + simpl. rewrite app_nil_r. f_equal.
      apply map_ext_in. intros k Hk.
      destruct (CardRank_eq_dec k r); [congruence|reflexivity].
    + rewrite IH. simpl. f_equal. f_equal.
      destruct (in_dec CardRank_eq_dec r l); reflexivity.
Qed.

(** The dictionary that [Counter] builds: every distinct rank with its
    multiplicity, in the order of first occurrence. *)
Theorem Counter_first_occ (rs : list CardRank) :
  Counter rs = map (fun k => (k, mult rs k)) (first_occ rs).
Proof.
  induction rs as [|r rs IH] using rev_ind.
  - reflexivity.
  - unfold Counter in *. rewrite fold_left_app. simpl. rewrite IH.
    rewrite counter_add_map by apply NoDup_first_occ.
    rewrite first_occ_snoc.
    destruct (in_dec CardRank_eq_dec r (first_occ rs)) as [Hi|Hi];
      destruct (in_dec CardRank_eq_dec r rs) as [Hj|Hj];
      try (exfalso; rewrite in_first_occ in Hi; tauto).
    + rewrite app_nil_r. apply map_ext. intro k. now rewrite mult_snoc.
    + rewrite map_app. simpl. f_equal.
      * apply map_ext. intro k. now rewrite mult_snoc.
      * rewrite mult_snoc. destruct (CardRank_eq_dec r r); [|congruence].
        apply (count_occ_not_In CardRank_eq_dec) in Hj. unfold mult. now rewrite Hj.
Qed.

Lemma find_Counter (n : nat) (rs : list CardRank) :
  option_map fst (find (fun '(_, occurrences) => occurrences =? n) (items (Counter rs)))
  = find (fun k => mult rs k =? n) (first_occ rs).
Proof.
  unfold items. rewrite Counter_first_occ.
  induction (first_occ rs) as [|k l IH]; simpl; [reflexivity|].
  destruct (mult rs k =? n); [reflexivity | exact IH].
Qed.

Lemma collect_acc (n : nat) (f : CardRank -> nat) (l acc : list CardRank) :
  fold_left
    (fun acc '(r, occurrences) => if occurrences =? n then acc ++ [r] else acc)
    (map (fun k => (k, f k)) l) acc
  = acc ++ filter (fun k => f k =? n) l.
Proof.
  revert acc. induction l as [|k l IH]; intro acc; simpl.
  - now rewrite app_nil_r.
  - rewrite IH. destruct (f k =? n); [|reflexivity].
    now rewrite <- app_assoc.
Qed.

Lemma collect_Counter (n : nat) (rs : list CardRank) :
  fold_left
    (fun acc '(r, occurrences) => if occurrences =? n then acc ++ [r] else acc)
    (items (Counter rs)) []
  = filter (fun k => mult rs k =? n) (first_occ rs).
Proof. unfold items. rewrite Counter_first_occ. apply collect_acc. Qed.

Lemma collect2_acc (f : CardRank -> nat) (l a b : list CardRank) :
  fold_left
    (fun '(threes, twos) '(r, occurrences) =>
       if occurrences =? 3 then (threes ++ [r], twos)
       else if occurrences =? 2 then (threes, twos ++ [r])
       else (threes, twos))
    (map (fun k => (k, f k)) l) (a, b)
  = (a ++ filter (fun k => f k =? 3) l, b ++ filter (fun k => f k =? 2) l).
Proof.
  revert a b. induction l as [|k l IH]; intros a b; simpl.
  - now rewrite !app_nil_r.
  - destruct (f k =? 3) eqn:E3.
    + rewrite IH. apply Nat.eqb_eq in E3. rewrite E3. simpl.
      now rewrite <- app_assoc.
    + destruct (f k =? 2); rewrite IH; [|reflexivity].
      now rewrite <- app_assoc.
Qed.

Lemma collect2_Counter (rs : list CardRank) :
  fold_left
    (fun '(threes, twos) '(r, occurrences) =>
       if occurrences =? 3 then (threes ++ [r], twos)
       else if occurrences =? 2 then (threes, twos ++ [r])
       else (threes, twos))
    (items (Counter rs)) ([], [])
  = (filter (fun k => mult rs k =? 3) (first_occ rs),
     filter (fun k => mult rs k =? 2) (first_occ rs)).
Proof. unfold items. rewrite Counter_first_occ. apply collect2_acc. Qed.

Lemma duplicates_Counter (rs : list CardRank) :
  existsb (fun occurrences => 1 <? occurrences) (values (Counter rs)) = false
  <-> NoDup rs.
Proof.
  unfold values. rewrite Counter_first_occ, map_map. cbn [snd].
  rewrite (NoDup_count_occ CardRank_eq_dec).
  split.
  - intros H x.
    destruct (in_dec CardRank_eq_dec x rs) as [Hi|Hi].
    + destruct (1 <? mult rs x) eqn:E.
      * exfalso. apply not_true_iff_false in H. apply H.
        apply existsb_exists. exists (mult rs x). split; [|exact E].
        apply in_map_iff. exists x. split; [reflexivity|]. now apply in_first_occ.
      * apply Nat.ltb_ge in E. exact E.
    + apply (count_occ_not_In CardRank_eq_dec) in Hi. lia.
  - intro H. destruct (existsb _ _) eqn:E; [|reflexivity].
    apply existsb_exists in E. destruct E as [o [Ho Hlt]].
    apply in_map_iff in Ho. destruct Ho as [k [<- _]].
    apply Nat.ltb_lt in Hlt. specialize (H k). unfold mult in Hlt. lia.
Qed.

Lemma result_option_ext {A : Type} (m m' : result (option A)) :
  (exists v, m = Ok v) -> (exists v, m' = Ok v) ->
  (forall r, m = Ok (Some r) <-> m' = Ok (Some r)) -> m = m'.
Proof.
  intros [[a|] ->] [[b|] ->] H; try reflexivity.
  - destruct (H a) as [H1 _]. symmetry. exact (H1 eq_refl).
  - destruct (H a) as [H1 _]. discriminate (H1 eq_refl).
  - destruct (H b) as [_ H2]. discriminate (H2 eq_refl).
Qed.

Lemma option_ext {A : Type} (o o' : option A) :
  (forall r, o = Some r <-> o' = Some r) -> o = o'.
Proof.
  destruct o as [a|], o' as [b|]; intro H; try reflexivity.
  - destruct (H a) as [H1 _]. symmetry. exact (H1 eq_refl).
  - destruct (H a) as [H1 _]. discriminate (H1 eq_refl).
  - destruct (H b) as [_ H2]. discriminate (H2 eq_refl).
Qed.

Lemma max_card_highest (cs : list Card) (c : Card) :
  is_max_card cs c -> highest_rank cs (rank c).
Proof.
  intros [Hin Hmax]. split.
  - unfold ranks. now apply in_map.
  - intros x Hx. now apply card_key_rank, Hmax.
Qed.

Lemma min_card_lowest (cs : list Card) (c : Card) :
  is_min_card cs c -> lowest_rank cs (rank c).
Proof.
  intros [Hin Hmin]. split.
  - unfold ranks. now apply in_map.
  - intros x Hx. now apply card_key_rank, Hmin.
Qed.

Lemma highest_rank_unique (cs : list Card) (r r' : CardRank) :
  highest_rank cs r -> highest_rank cs r' -> r = r'.
Proof.
  intros [Hr Hm] [Hr' Hm']. apply CardRank_value_inj.
  unfold ranks in *. apply in_map_iff in Hr, Hr'.
  destruct Hr as [c [<- Hc]], Hr' as [c' [<- Hc']].
  specialize (Hm c' Hc'). specialize (Hm' c Hc). lia.
Qed.

Lemma lowest_rank_unique (cs : list Card) (r r' : CardRank) :
  lowest_rank cs r -> lowest_rank cs r' -> r = r'.
Proof.
  intros [Hr Hm] [Hr' Hm']. apply CardRank_value_inj.
  unfold ranks in *. apply in_map_iff in Hr, Hr'.
  destruct Hr as [c [<- Hc]], Hr' as [c' [<- Hc']].
  specialize (Hm c' Hc'). specialize (Hm' c Hc). lia.
Qed.

Lemma hand_nonempty (cs : list Card) : length cs = 5 -> cs <> [].
Proof. now destruct cs. Qed.

(** ** [high_card], [is_straight], [is_flush], [is_straight_flush] *)

Lemma is_straight_unfold (cs : list Card) (hi lo : Card) :
  is_max_card cs hi -> is_min_card cs lo ->
  is_straight cs =
  if negb (existsb (fun o => 1 <? o) (values (Counter (ranks cs)))) then
    if (CardRank_value (rank hi) - CardRank_value (rank lo) =? 4)%Z
    then Ok (Some (rank hi)) else Ok None
  else Ok None.
Proof.
  intros Hhi Hlo. unfold is_straight.
  assert (Hne : cs <> []) by (destruct Hhi as [Hin _]; now destruct cs).
  destruct (negb _); [|reflexivity].
  rewrite item_last_map, item_first_map.
  destruct (item_last_sorted Hne) as [c [-> Hc]].
  destruct (item_first_sorted Hne) as [c' [-> Hc']].
  rewrite (is_max_card_unique Hc Hhi), (is_min_card_unique Hc' Hlo).
  reflexivity.
Qed.

Lemma is_straight_some (cs : list Card) (r : CardRank) :
  cs <> [] ->
  is_straight cs = Ok (Some r) <-> straight_condition cs /\ highest_rank cs r.
Proof.
  intro Hne.
  destruct (item_last_sorted Hne) as [hi [_ Hhi]].
  destruct (item_first_sorted Hne) as [lo [_ Hlo]].
  rewrite (is_straight_unfold Hhi Hlo).
  pose proof (duplicates_Counter (ranks cs)) as Hdup.
  pose proof (max_card_highest Hhi) as Hh.
  pose proof (min_card_lowest Hlo) as Hl.
  destruct (existsb _ _); simpl.
  - split; [discriminate|]. intros [[Hnd _] _].
    apply Hdup in Hnd. discriminate.
  - destruct (Z.eqb_spec (CardRank_value (rank hi) - CardRank_value (rank lo)) 4)
      as [E|E].
    + split.
      * intros [= <-]. split; [|exact Hh]. split; [now apply Hdup|].
        now exists (rank hi), (rank lo).
      * intros [_ Hr]. now rewrite (highest_rank_unique Hr Hh).
    + split; [discriminate|].
      intros [[_ [hi' [lo' [Hh' [Hl' E']]]]] _]. exfalso. apply E.
      now rewrite (highest_rank_unique Hh Hh'), (lowest_rank_unique Hl Hl').
Qed.

Lemma is_straight_total (cs : list Card) :
  cs <> [] -> exists v, is_straight cs = Ok v.
Proof.
  intro Hne.
  destruct (item_last_sorted Hne) as [hi [_ Hhi]].
  destruct (item_first_sorted Hne) as [lo [_ Hlo]].
  rewrite (is_straight_unfold Hhi Hlo).
  destruct (negb _); [destruct (_ =? _)%Z|]; eauto.
Qed.

Lemma is_straight_none (cs : list Card) :
  cs <> [] -> is_straight cs = Ok None <-> ~ straight_condition cs.
Proof.
  intro Hne. destruct (is_straight_total Hne) as [[r|] E]; rewrite E.
  - split; [discriminate|]. intro H. exfalso. apply H.
    now apply (is_straight_some r Hne).
  - split; [|reflexivity]. intros _ H.
    destruct H as [Hnd [hi [lo [Hh Hrest]]]].
    assert (is_straight cs = Ok (Some hi)).
    { apply (is_straight_some hi Hne). split; [|exact Hh].
      split; [exact Hnd|]. now exists hi, lo. }
    congruence.
Qed.

(** C2. On a hand of five cards, given in any order, [is_straight] returns a
    rank exactly when no rank occurs twice and the highest rank value minus
    the lowest is 4, the rank returned is the highest rank of the hand, and
    [None] is returned in every other case. *)
Theorem is_straight_spec (cs : list Card) :
  length cs = 5 ->
  (forall r, is_straight cs = Ok (Some r) <->
             straight_condition cs /\ highest_rank cs r) /\
  (is_straight cs = Ok None <-> ~ straight_condition cs).
Proof.
  intro H. apply hand_nonempty in H. split.
  - intro r. now apply is_straight_some.
  - now apply is_straight_none.
Qed.

Lemma set_of_single (l : list CardSuit) :
  (len (set_of l) =? 1)%Z = true <->
  l <> [] /\ exists s, forall x, In x l -> x = s.
Proof.
  unfold len, set_of. rewrite Z.eqb_eq.
  pose proof (NoDup_nodup CardSuit_eq_dec l) as Hnd.
  pose proof (nodup_In CardSuit_eq_dec l) as Hin.
  destruct (nodup CardSuit_eq_dec l) as [|a [|b t]]; simpl.
  - split; [lia|]. intros [Hne _]. exfalso. apply Hne.
    destruct l as [|x l]; [reflexivity|].
    exfalso. apply (Hin x). now left.
  - split; [|reflexivity]. intros _. split.
    + intros ->. apply (Hin a). now left.
    + exists a. intros x Hx. apply Hin in Hx. destruct Hx as [->|[]]. reflexivity.
  - split; [lia|]. intros [_ [s Hs]]. exfalso.
    assert (a = s) by (apply Hs, Hin; now left).
    assert (b = s) by (apply Hs, Hin; right; now left).
    subst. inversion Hnd as [|? ? Hn _]. apply Hn. now left.
Qed.

Lemma one_suit_suits (cs : list Card) :
  one_suit cs <-> exists s, forall x, In x (map suit cs) -> x = s.
Proof.
  unfold one_suit. split; intros [s Hs]; exists s.
  - intros x Hx. apply in_map_iff in Hx. destruct Hx as [c [<- Hc]]. now apply Hs.
  - intros c Hc. apply Hs. now apply in_map.
Qed.

Lemma is_flush_unfold (cs : list Card) (hi : Card) :
  is_max_card cs hi ->
  is_flush cs =
  if (len (set_of (map suit cs)) =? 1)%Z then Ok (Some (rank hi)) else Ok None.
Proof.
  intro Hhi. unfold is_flush.
  assert (Hne : cs <> []) by (destruct Hhi as [Hin _]; now destruct cs).
  destruct (_ =? _)%Z; [|reflexivity].
  destruct (item_last_sorted Hne) as [c [-> Hc]].
  now rewrite (is_max_card_unique Hc Hhi).
Qed.

Lemma is_flush_some (cs : list Card) (r : CardRank) :
  cs <> [] ->
  is_flush cs = Ok (Some r) <-> one_suit cs /\ highest_rank cs r.
Proof.
  intro Hne.
  destruct (item_last_sorted Hne) as [hi [_ Hhi]].
  rewrite (is_flush_unfold Hhi).
  pose proof (max_card_highest Hhi) as Hh.
  pose proof (set_of_single (map suit cs)) as Hs.
  rewrite one_suit_suits.
  destruct (_ =? _)%Z.
  - split.
    + intros [= <-]. split; [|exact Hh]. now apply Hs.
    + intros [_ Hr]. now rewrite (highest_rank_unique Hr Hh).
  - split; [discriminate|]. intros [Ho _].
    assert (false = true); [|discriminate].
    apply Hs. split; [|exact Ho]. now destruct cs.
Qed.

Lemma is_flush_total (cs : list Card) : cs <> [] -> exists v, is_flush cs = Ok v.
Proof.
  intro Hne. destruct (item_last_sorted Hne) as [hi [_ Hhi]].
  rewrite (is_flush_unfold Hhi). destruct (_ =? _)%Z; eauto.
Qed.

Lemma matches_is_flush (cs : list Card) :
  cs <> [] -> matches (is_flush cs) <-> one_suit cs.
Proof.
  intro Hne. split.
  - intros [r Hr]. now apply (is_flush_some r Hne) in Hr.
  - intro Ho. destruct (item_last_sorted Hne) as [hi [_ Hhi]].
    exists (rank hi). apply (is_flush_some _ Hne).
    split; [exact Ho | now apply max_card_highest].
Qed.

Lemma matches_is_straight (cs : list Card) :
  cs <> [] -> matches (is_straight cs) <-> straight_condition cs.
Proof.
  intro Hne. split.
  - intros [r Hr]. now apply (is_straight_some r Hne) in Hr.
  - intro Hs. destruct (item_last_sorted Hne) as [hi [_ Hhi]].
    exists (rank hi). apply (is_straight_some _ Hne).
    split; [exact Hs | now apply max_card_highest].
Qed.

Lemma high_card_spec (cs : list Card) (c : Card) :
  cs <> [] -> high_card cs = Ok c <-> is_max_card cs c.
Proof.
  intro Hne. destruct (high_card_max Hne) as [m [-> Hm]]. split.
  - now intros [= <-].
  - intro Hc. now rewrite (is_max_card_unique Hc Hm).
Qed.

Lemma is_straight_flush_unfold (cs : list Card) (hi : Card) :
  is_max_card cs hi ->
  is_straight_flush cs =
  match is_straight cs, is_flush cs with
  | Ok (Some _), Ok (Some _) => Ok (Some (rank hi))
  | _, _ => Ok None
  end.
Proof.
  intro Hhi. unfold is_straight_flush.
  assert (Hne : cs <> []) by (destruct Hhi as [Hin _]; now destruct cs).
  destruct (is_straight_total Hne) as [s ->].
  destruct (is_flush_total Hne) as [f ->]. simpl.
  destruct s as [s|]; simpl; [|reflexivity].
  destruct f as [f|]; simpl; [|reflexivity].
  destruct (high_card_max Hne) as [m [-> Hm]]. simpl.
  now rewrite (is_max_card_unique Hm Hhi).
Qed.

Lemma is_straight_flush_total (cs : list Card) :
  cs <> [] -> exists v, is_straight_flush cs = Ok v.
Proof.
  intro Hne. destruct (item_last_sorted Hne) as [hi [_ Hhi]].
  rewrite (is_straight_flush_unfold Hhi).
  destruct (is_straight cs) as [[?|]|]; destruct (is_flush cs) as [[?|]|]; eauto.
Qed.

Lemma is_straight_flush_some (cs : list Card) (r : CardRank) :
  cs <> [] ->
  is_straight_flush cs = Ok (Some r) <->
  matches (is_straight cs) /\ matches (is_flush cs) /\ highest_rank cs r.
Proof.
  intro Hne. destruct (item_last_sorted Hne) as [hi [_ Hhi]].
  rewrite (is_straight_flush_unfold Hhi).
  pose proof (max_card_highest Hhi) as Hh. unfold matches.
  destruct (is_straight cs) as [[s|]|]; destruct (is_flush cs) as [[f|]|];
    try (split; [discriminate | intros [[? ?] [[? ?] _]]; discriminate]).
  split.
  - intros [= <-]. eauto.
  - intros [_ [_ Hr]]. now rewrite (highest_rank_unique Hr Hh).
Qed.

(** C7. On a hand of five cards [is_straight_flush] returns a rank exactly
    when [is_straight] and [is_flush] both match on that hand, the rank
    returned is the highest rank of the hand, and [None] is returned when
    one of the two checks does not match. *)
Theorem is_straight_flush_spec (cs : list Card) :
  length cs = 5 ->
  (forall r, is_straight_flush cs = Ok (Some r) <->
             matches (is_straight cs) /\ matches (is_flush cs) /\
             highest_rank cs r) /\
  (is_straight_flush cs = Ok None <->
   ~ (matches (is_straight cs) /\ matches (is_flush cs))).
Proof.
  intro H. apply hand_nonempty in H. split.
  - intro r. now apply is_straight_flush_some.
  - destruct (is_straight_flush_total H) as [[r|] E]; rewrite E.
    + split; [discriminate|]. intro Hn. exfalso. apply Hn.
      apply (is_straight_flush_some r H) in E. tauto.
    + split; [|reflexivity]. intros _ [Hs Hf].
      destruct (item_last_sorted H) as [hi [_ Hhi]].
      assert (is_straight_flush cs = Ok (Some (rank hi))).
      { apply (is_straight_flush_some _ H).
        repeat split; try assumption; now apply max_card_highest. }
      congruence.
Qed.

(** ** Multiplicities *)

Lemma mult_pos_in (rs : list CardRank) (r : CardRank) :
  0 < mult rs r -> In r (first_occ rs).
Proof.
  intro H. apply in_first_occ. now apply (count_occ_In CardRank_eq_dec).
Qed.

Lemma mult_two_le (rs : list CardRank) (a b : CardRank) :
  a <> b -> mult rs a + mult rs b <= length rs.
Proof.
  intro Hab. unfold mult. induction rs as [|x rs IH]; simpl; [lia|].
  destruct (CardRank_eq_dec x a), (CardRank_eq_dec x b); subst;
    try congruence; lia.
Qed.

Lemma mult_three_le (rs : list CardRank) (a b c : CardRank) :
  a <> b -> a <> c -> b <> c -> mult rs a + mult rs b + mult rs c <= length rs.
Proof.
  intros Hab Hac Hbc. unfold mult. induction rs as [|x rs IH]; simpl; [lia|].
  destruct (CardRank_eq_dec x a), (CardRank_eq_dec x b), (CardRank_eq_dec x c);
    subst; try congruence; lia.
Qed.

Lemma mult_perm (rs rs' : list CardRank) (r : CardRank) :
  Permutation rs rs' -> mult rs r = mult rs' r.
Proof.
  intro H. unfold mult.
  now apply (proj1 (Permutation_count_occ CardRank_eq_dec rs rs')).
Qed.

Lemma rank_mult_perm (cs cs' : list Card) (r : CardRank) :
  Permutation cs cs' -> rank_mult r cs = rank_mult r cs'.
Proof.
  intro H. unfold rank_mult, ranks. apply mult_perm. now apply Permutation_map.
Qed.

Lemma length_ranks (cs : list Card) : length (ranks cs) = length cs.
Proof. unfold ranks. apply length_map. Qed.

Lemma find_unique (P : CardRank -> bool) (l : list CardRank) (r : CardRank) :
  In r l -> P r = true -> (forall x, In x l -> P x = true -> x = r) ->
  find P l = Some r.
Proof.
  intros Hin Hp Hu. destruct (find P l) as [x|] eqn:E.
  - apply find_some in E. destruct E as [Hx Hpx]. f_equal. now apply Hu.
  - pose proof (find_none P l E r Hin). congruence.
Qed.

Lemma filter_single (P : CardRank -> bool) (l : list CardRank) (r : CardRank) :
  NoDup l ->
  filter P l = [r] <->
  In r l /\ P r = true /\ forall x, In x l -> P x = true -> x = r.
Proof.
  intro Hnd. pose proof (NoDup_filter P Hnd) as Hf.
  pose proof (filter_In P) as Hin.
  split.
  - intro E. rewrite E in Hf.
    assert (Hr : In r (filter P l)) by (rewrite E; now left).
    apply Hin in Hr. destruct Hr as [Hr Hp]. repeat split; try assumption.
    intros x Hx Hpx.
    assert (Hx' : In x (filter P l)) by (apply Hin; tauto).
    rewrite E in Hx'. destruct Hx' as [->|[]]. reflexivity.
  - intros [Hr [Hp Hu]].
    assert (Hall : forall x, In x (filter P l) -> x = r).
    { intros x Hx. apply Hin in Hx. now apply Hu. }
    assert (Hr' : In r (filter P l)) by (apply Hin; tauto).
    destruct (filter P l) as [|a [|b t]].
    + destruct Hr'.
    + f_equal. apply Hall. now left.
    + exfalso. assert (a = r) by (apply Hall; now left).
      assert (b = r) by (apply Hall; right; now left). subst.
      inversion Hf as [|? ? Hn _]. apply Hn. now left.
Qed.

(** ** [is_four_of_a_kind], [is_three_of_a_kind] *)

Lemma is_four_of_a_kind_some (cs : list Card) (r : CardRank) :
  length cs = 5 ->
  is_four_of_a_kind cs = Some r <-> rank_mult r cs = 4.
Proof.
  intro Hlen. unfold is_four_of_a_kind, rank_mult. rewrite find_Counter.
  split.
  - intro E. apply find_some in E. destruct E as [_ E]. now apply Nat.eqb_eq.
  - intro E. apply find_unique.
    + apply mult_pos_in. lia.
    + now apply Nat.eqb_eq.
    + intros x _ Hx. apply Nat.eqb_eq in Hx.
      destruct (CardRank_eq_dec x r) as [->|Hn]; [reflexivity|].
      pose proof (mult_two_le (ranks cs) Hn). rewrite length_ranks in *. lia.
Qed.

Lemma is_three_of_a_kind_some (cs : list Card) (r : CardRank) :
  length cs = 5 ->
  is_three_of_a_kind cs = Some r <-> rank_mult r cs = 3.
Proof.
  intro Hlen. unfold is_three_of_a_kind, rank_mult. rewrite find_Counter.
  split.
  - intro E. apply find_some in E. destruct E as [_ E]. now apply Nat.eqb_eq.
  - intro E. apply find_unique.
    + apply mult_pos_in. lia.
    + now apply Nat.eqb_eq.
    + intros x _ Hx. apply Nat.eqb_eq in Hx.
      destruct (CardRank_eq_dec x r) as [->|Hn]; [reflexivity|].
      pose proof (mult_two_le (ranks cs) Hn). rewrite length_ranks in *. lia.
Qed.

(** ** [is_full_house], [is_one_pair] *)

Lemma filter_mult_single (n : nat) (cs : list Card) (r : CardRank) :
  0 < n ->
  filter (fun k => mult (ranks cs) k =? n) (first_occ (ranks cs)) = [r]
  <-> only_rank_of_mult n cs r.
Proof.
  intro Hn. rewrite filter_single by apply NoDup_first_occ.
  unfold only_rank_of_mult, rank_mult. split.
  - intros [_ [Hp Hu]]. apply Nat.eqb_eq in Hp. split; [exact Hp|].
    intros r' Hr'. apply Hu; [apply mult_pos_in; lia | now apply Nat.eqb_eq].
  - intros [Hp Hu]. repeat split.
    + apply mult_pos_in. lia.
    + now apply Nat.eqb_eq.
    + intros x _ Hx. apply Hu. now apply Nat.eqb_eq.
Qed.

Lemma is_full_house_some (cs : list Card) (t p : CardRank) :
  is_full_house cs = Some (t, p) <->
  only_rank_of_mult 3 cs t /\ only_rank_of_mult 2 cs p.
Proof.
  unfold is_full_house. rewrite collect2_Counter.
  rewrite <- (filter_mult_single (n:=3)), <- (filter_mult_single (n:=2)) by lia.
  destruct (filter (fun k => mult (ranks cs) k =? 3) _) as [|a [|? ?]];
    destruct (filter (fun k => mult (ranks cs) k =? 2) _) as [|b [|? ?]];
    split; try discriminate; try (intros [? ?]; discriminate).
  - now intros [= -> ->].
  - now intros [[= ->] [= ->]].
Qed.

Lemma is_one_pair_some (cs : list Card) (r : CardRank) :
  is_one_pair cs = Some r <-> only_rank_of_mult 2 cs r.
Proof.
  unfold is_one_pair, total_pairs. rewrite collect_Counter.
  rewrite <- (filter_mult_single (n:=2)) by lia.
  destruct (filter _ _) as [|a [|? ?]]; split; try discriminate.
  - now intros [= ->].
  - now intros [= ->].
Qed.

Lemma only_rank_of_mult_perm (n : nat) (cs cs' : list Card) (r : CardRank) :
  Permutation cs cs' -> only_rank_of_mult n cs r -> only_rank_of_mult n cs' r.
Proof.
  intros H [Hr Hu]. split.
  - now rewrite <- (rank_mult_perm r H).
  - intros r' Hr'. apply Hu. now rewrite (rank_mult_perm r' H).
Qed.

Lemma is_full_house_perm (cs cs' : list Card) :
  Permutation cs cs' -> is_full_house cs' = is_full_house cs.
Proof.
  intro H. apply option_ext. intros [t p]. rewrite !is_full_house_some.
  split; intros [H3 H2]; split;
    eauto using only_rank_of_mult_perm, Permutation_sym.
Qed.

(** In a hand of five cards a rank that occurs three times is the only
    such rank, and a rank that occurs twice beside it is the only pair. *)
Lemma full_house_partition (cs : list Card) (t p : CardRank) :
  length cs = 5 -> rank_mult t cs = 3 -> rank_mult p cs = 2 ->
  only_rank_of_mult 3 cs t /\ only_rank_of_mult 2 cs p.
Proof.
  unfold only_rank_of_mult, rank_mult. intros Hlen Ht Hp.
  assert (Htp : t <> p) by (intros ->; lia).
  repeat split; try assumption.
  - intros t' Ht'. destruct (CardRank_eq_dec t' t) as [|Hn]; [assumption|].
    pose proof (mult_two_le (ranks cs) Hn). rewrite length_ranks in *. lia.
  - intros p' Hp'. destruct (CardRank_eq_dec p' p) as [|Hn]; [assumption|].
    assert (Hn' : t <> p') by (intros ->; lia).
    pose proof (mult_three_le (ranks cs) Htp Hn' (not_eq_sym Hn)).
    rewrite length_ranks in *. lia.
Qed.

(** C8. On a hand of five cards [is_full_house] returns [(t, p)] exactly
    when [t] is the one rank that occurs three times and [p] the one rank
    that occurs twice (the three-fold rank first, the pair second), which
    is the case as soon as [t] occurs three times and [p] twice; it returns
    [None] for every other partition; and the result does not depend on
    the order of the cards. *)
Theorem is_full_house_spec (cs : list Card) :
  length cs = 5 ->
  (forall t p, is_full_house cs = Some (t, p) <->
               only_rank_of_mult 3 cs t /\ only_rank_of_mult 2 cs p) /\
  (forall t p, rank_mult t cs = 3 -> rank_mult p cs = 2 ->
               is_full_house cs = Some (t, p)) /\
  (is_full_house cs = None <->
   ~ exists t p, only_rank_of_mult 3 cs t /\ only_rank_of_mult 2 cs p) /\
  (forall cs', Permutation cs cs' -> is_full_house cs' = is_full_house cs).
Proof.
  intro Hlen. split; [|split; [|split]].
  - intros t p. apply is_full_house_some.
  - intros t p Ht Hp. apply is_full_house_some.
    now apply full_house_partition.
  - destruct (is_full_house cs) as [[t p]|] eqn:E.
    + split; [discriminate|]. intro H. exfalso. apply H. exists t, p.
      now apply is_full_house_some.
    + split; [|reflexivity]. intros _ [t [p H]].
      apply is_full_house_some in H. congruence.
  - apply is_full_house_perm.
Qed.

(** ** [is_two_pairs] *)

Lemma StronglySorted_remove (R : CardRank -> CardRank -> Prop)
      (l : list CardRank) (r : CardRank) :
  StronglySorted R l -> StronglySorted R (remove CardRank_eq_dec r l).
Proof.
  induction 1 as [|x l Hs IH Hx]; simpl; [constructor|].
  destruct (CardRank_eq_dec r x); [exact IH|].
  constructor; [exact IH|].
  rewrite Forall_forall in *. intros y Hy. apply Hx.
  now apply in_remove in Hy.
Qed.

Lemma StronglySorted_filter (R : CardRank -> CardRank -> Prop)
      (P : CardRank -> bool) (l : list CardRank) :
  StronglySorted R l -> StronglySorted R (filter P l).
Proof.
  induction 1 as [|x l Hs IH Hx]; simpl; [constructor|].
  destruct (P x); [|exact IH].
  constructor; [exact IH|].
  rewrite Forall_forall in *. intros y Hy. apply Hx.
  now apply filter_In in Hy.
Qed.

Lemma StronglySorted_impl_in (R R' : CardRank -> CardRank -> Prop)
      (l : list CardRank) :
  (forall x y, In x l -> In y l -> R x y -> R' x y) ->
  StronglySorted R l -> StronglySorted R' l.
Proof.
  intros H Hs. induction Hs as [|x l Hs IH Hx]; [constructor|].
  constructor.
  - apply IH. intros a b Ha Hb. apply H; now right.
  - rewrite Forall_forall in *. intros y Hy.
    apply H; [now left | now right | now apply Hx].
Qed.

Lemma first_occ_sorted (rs : list CardRank) :
  StronglySorted (before rs) (first_occ rs).
Proof.
  induction rs as [|r rs IH]; simpl; [constructor|].
  constructor.
  - apply StronglySorted_impl_in with (R := before rs).
    + intros x y Hx Hy Hxy.
      apply in_remove in Hx, Hy. destruct Hx as [_ Hx], Hy as [_ Hy].
      unfold before in *. simpl.
      destruct (CardRank_eq_dec r x), (CardRank_eq_dec r y);
        try congruence. lia.
    + now apply StronglySorted_remove.
  - rewrite Forall_forall. intros y Hy.
    apply in_remove in Hy. destruct Hy as [_ Hy].
    unfold before. simpl.
    destruct (CardRank_eq_dec r r), (CardRank_eq_dec r y); try congruence. lia.
Qed.

Lemma first_pos_inj (rs : list CardRank) (a b : CardRank) :
  In a rs -> In b rs -> first_pos a rs = first_pos b rs -> a = b.
Proof.
  induction rs as [|x rs IH]; simpl; [tauto|].
  intros Ha Hb.
  destruct (CardRank_eq_dec x a), (CardRank_eq_dec x b);
    try congruence; try discriminate.
  intros [= E]. apply IH; tauto.
Qed.

Lemma filter_pair (P : CardRank -> bool) (rs : list CardRank) (a b : CardRank) :
  filter P (first_occ rs) = [a; b] <->
  (a <> b /\ (In a rs /\ P a = true) /\ (In b rs /\ P b = true) /\
   forall x, In x rs -> P x = true -> x = a \/ x = b) /\ before rs a b.
Proof.
  pose proof (NoDup_filter P (NoDup_first_occ rs)) as Hnd.
  pose proof (StronglySorted_filter P (first_occ_sorted rs)) as Hss.
  assert (Hin : forall x, In x (filter P (first_occ rs)) <-> In x rs /\ P x = true).
  { intro x. rewrite filter_In, in_first_occ. tauto. }
  split.
  - intro E. rewrite E in *.
    inversion Hss as [|? ? _ Hab]; subst.
    inversion Hab as [|? ? Hlt _]; subst.
    repeat split.
    + intros ->. unfold before in Hlt. lia.
    + apply Hin. now left.
    + apply Hin. now left.
    + apply Hin. right. now left.
    + apply Hin. right. now left.
    + intros x Hx Hp. destruct (proj2 (Hin x) (conj Hx Hp)) as [<-|[<-|[]]]; tauto.
    + exact Hlt.
  - intros [[Hab [Ha [Hb Hu]]] Hlt].
    apply Hin in Ha, Hb.
    assert (Hall : forall x, In x (filter P (first_occ rs)) -> x = a \/ x = b).
    { intros x Hx. apply Hin in Hx. now apply Hu. }
    destruct (filter P (first_occ rs)) as [|x [|y [|z t]]].
    + destruct Ha.
    + destruct Ha as [<-|[]], Hb as [<-|[]]. congruence.
    + inversion Hnd as [|? ? Hn _]; subst.
      inversion Hss as [|? ? _ Hf]; subst.
      inversion Hf as [|? ? Hxy _]; subst.
      assert (x <> y) by (intros ->; apply Hn; now left).
      destruct (Hall x (or_introl eq_refl)) as [->| ->];
        destruct (Hall y (or_intror (or_introl eq_refl))) as [->| ->];
        try congruence.
      unfold before in *. lia.
    + exfalso.
      inversion Hnd as [|? ? Hn Hnd']; subst.
      inversion Hnd' as [|? ? Hn' _]; subst.
      assert (x <> y) by (intros ->; apply Hn; now left).
      assert (x <> z) by (intros ->; apply Hn; right; now left).
      assert (y <> z) by (intros ->; apply Hn'; now left).
      destruct (Hall x (or_introl eq_refl)) as [->| ->];
        destruct (Hall y (or_intror (or_introl eq_refl))) as [->| ->];
        destruct (Hall z (or_intror (or_intror (or_introl eq_refl)))) as [->| ->];
        congruence.
Qed.

Lemma is_two_pairs_some (cs : list Card) (a b : CardRank) :
  is_two_pairs cs = Some (a, b) <->
  two_pair_ranks cs a b /\ before (ranks cs) a b.
Proof.
  unfold is_two_pairs, total_pairs. rewrite collect_Counter.
  transitivity
    (filter (fun k => mult (ranks cs) k =? 2) (first_occ (ranks cs)) = [a; b]).
  - destruct (filter _ _) as [|x [|y [|? ?]]]; split; try discriminate.
    + now intros [= -> ->].
    + now intros [= -> ->].
  - rewrite filter_pair. unfold two_pair_ranks, rank_mult.
    rewrite !Nat.eqb_eq.
    assert (Hpos : forall x, mult (ranks cs) x = 2 -> In x (ranks cs)).
    { intros x Hx. apply (count_occ_In CardRank_eq_dec). unfold mult in Hx. lia. }
    split.
    + intros [[Hab [[_ Ha] [[_ Hb] Hu]]] Hlt]. repeat split; try assumption.
      intros r Hr. apply Hu; [now apply Hpos|now apply Nat.eqb_eq].
    + intros [[Hab [Ha [Hb Hu]]] Hlt]. repeat split; auto.
      intros x _ Hx. apply Hu. now apply Nat.eqb_eq.
Qed.

Lemma two_pair_ranks_sym (cs : list Card) (a b : CardRank) :
  two_pair_ranks cs a b -> two_pair_ranks cs b a.
Proof.
  intros [Hab [Ha [Hb Hu]]]. repeat split; auto.
  intros r Hr. destruct (Hu r Hr); tauto.
Qed.

Lemma two_pair_ranks_perm (cs cs' : list Card) (a b : CardRank) :
  Permutation cs cs' -> two_pair_ranks cs a b -> two_pair_ranks cs' a b.
Proof.
  intros H [Hab [Ha [Hb Hu]]]. repeat split; auto.
  - now rewrite <- (rank_mult_perm a H).
  - now rewrite <- (rank_mult_perm b H).
  - intros r Hr. apply Hu. now rewrite (rank_mult_perm r H).
Qed.

Lemma two_pair_ranks_order (cs : list Card) (a b : CardRank) :
  two_pair_ranks cs a b -> before (ranks cs) a b \/ before (ranks cs) b a.
Proof.
  intros [Hab [Ha [Hb _]]]. unfold before, rank_mult, mult in *.
  assert (Hia : In a (ranks cs)) by (apply (count_occ_In CardRank_eq_dec); lia).
  assert (Hib : In b (ranks cs)) by (apply (count_occ_In CardRank_eq_dec); lia).
  pose proof (@first_pos_inj (ranks cs) a b Hia Hib).
  destruct (Nat.lt_trichotomy (first_pos a (ranks cs)) (first_pos b (ranks cs)))
    as [?|[?|?]]; tauto.
Qed.

(** In a hand of five cards two distinct ranks that occur twice are the
    only such ranks. *)
Lemma two_pair_partition (cs : list Card) (a b : CardRank) :
  length cs = 5 -> a <> b -> rank_mult a cs = 2 -> rank_mult b cs = 2 ->
  two_pair_ranks cs a b.
Proof.
  unfold two_pair_ranks, rank_mult. intros Hlen Hab Ha Hb.
  repeat split; try assumption.
  intros r Hr.
  destruct (CardRank_eq_dec r a) as [|Hna]; [now left|].
  destruct (CardRank_eq_dec r b) as [|Hnb]; [now right|].
  pose proof (mult_three_le (ranks cs) Hab (not_eq_sym Hna) (not_eq_sym Hnb)).
  rewrite length_ranks in *. lia.
Qed.

(** C4, as the code has it. On a hand of five cards [is_two_pairs] returns
    [(a, b)] exactly when [a] and [b] are the two distinct ranks that occur
    twice and [a] is the one that occurs first in the hand, whichever of
    the two is the greater; it returns [None] exactly when the hand does
    not have two such ranks. *)
Theorem is_two_pairs_spec (cs : list Card) :
  length cs = 5 ->
  (forall a b, is_two_pairs cs = Some (a, b) <->
               two_pair_ranks cs a b /\ before (ranks cs) a b) /\
  (forall a b, a <> b -> rank_mult a cs = 2 -> rank_mult b cs = 2 ->
               before (ranks cs) a b -> is_two_pairs cs = Some (a, b)) /\
  (is_two_pairs cs = None <-> ~ exists a b, two_pair_ranks cs a b).
Proof.
  intro Hlen. split; [|split].
  - intros a b. apply is_two_pairs_some.
  - intros a b Hab Ha Hb Hlt. apply is_two_pairs_some.
    split; [now apply two_pair_partition | exact Hlt].
  - destruct (is_two_pairs cs) as [[a b]|] eqn:E.
    + split; [discriminate|]. intro H. exfalso. apply H. exists a, b.
      now apply is_two_pairs_some in E.
    + split; [|reflexivity]. intros _ [a [b H]].
      destruct (two_pair_ranks_order H) as [Hlt|Hlt].
      * assert (is_two_pairs cs = Some (a, b)) by now apply is_two_pairs_some.
        congruence.
      * assert (is_two_pairs cs = Some (b, a)).
        { apply is_two_pairs_some. split; [now apply two_pair_ranks_sym|exact Hlt]. }
        congruence.
Qed.

(** C9, as the code has it. On a hand of five cards [is_three_of_a_kind]
    returns [r] exactly when [r] occurs three times, whether or not another
    rank occurs twice: on a hand that [is_full_house] accepts it returns
    the three-fold rank. It returns [None] exactly when no rank occurs
    three times. *)
Theorem is_three_of_a_kind_spec (cs : list Card) :
  length cs = 5 ->
  (forall r, is_three_of_a_kind cs = Some r <-> rank_mult r cs = 3) /\
  (is_three_of_a_kind cs = None <-> forall r, rank_mult r cs <> 3) /\
  (forall t p, is_full_house cs = Some (t, p) -> is_three_of_a_kind cs = Some t).
Proof.
  intro Hlen. split; [|split].
  - intro r. now apply is_three_of_a_kind_some.
  - destruct (is_three_of_a_kind cs) as [r|] eqn:E.
    + split; [discriminate|]. intro H. exfalso. apply (H r).
      now apply is_three_of_a_kind_some.
    + split; [|reflexivity]. intros _ r Hr.
      apply (@is_three_of_a_kind_some cs r Hlen) in Hr. congruence.
  - intros t p H. apply is_full_house_some in H. destruct H as [[Ht _] _].
    now apply is_three_of_a_kind_some.
Qed.

(** ** [CardDeck] *)

Lemma pop_snoc (l : list Card) (c : Card) :
  pop {| cards := l ++ [c] |} = (Ok c, {| cards := l |}).
Proof. unfold pop. simpl. rewrite rev_app_distr. simpl. now rewrite rev_involutive. Qed.

Lemma pop_no_OutOfCards (d : CardDeck) : fst (pop d) <> Raise OutOfCards.
Proof. unfold pop. destruct (rev (cards d)); simpl; discriminate. Qed.

Lemma deal_loop_no_OutOfCards (k : nat) (acc : list Card) (d : CardDeck) :
  fst (deal_loop k acc d) <> Raise OutOfCards.
Proof.
  revert acc d. induction k as [|k IH]; intros acc d; simpl; [discriminate|].
  pose proof (pop_no_OutOfCards d) as Hp.
  destruct (pop d) as [[c|e] d']; simpl in *; [apply IH | congruence].
Qed.

(** With enough cards the loop takes the last [k] cards, last card first. *)
Lemma deal_loop_ok (k : nat) (acc rest taken : list Card) :
  length taken = k ->
  deal_loop k acc {| cards := rest ++ taken |}
  = (Ok (acc ++ rev taken), {| cards := rest |}).
Proof.
  revert acc taken. induction k as [|k IH]; intros acc taken Hlen.
  - destruct taken; [|discriminate]. simpl. now rewrite !app_nil_r.
  - destruct (exists_last (l:=taken)) as [t' [c ->]]; [now destruct taken|].
    rewrite length_app in Hlen. simpl in Hlen.
    cbn [deal_loop]. rewrite app_assoc, pop_snoc.
    rewrite IH by lia. rewrite rev_app_distr. simpl.
    now rewrite <- app_assoc.
Qed.

(** What [deal_cards] does, for every deck and every count. *)
Lemma deal_cards_cases (n : Z) (d : CardDeck) :
  let l := cards d in
  ((len l <= n)%Z -> deal_cards n d = (Raise OutOfCards, d)) /\
  ((n < len l)%Z ->
   let keep := length l - Z.to_nat n in
   deal_cards n d = (Ok (rev (skipn keep l)), {| cards := firstn keep l |})).
Proof.
  destruct d as [l]. simpl. unfold deal_cards. simpl. split; intro H.
  - destruct (Z.gtb_spec (len l - n) 0); [lia | reflexivity].
  - destruct (Z.gtb_spec (len l - n) 0); [|lia].
    rewrite <- (firstn_skipn (length l - Z.to_nat n) l) at 1.
    rewrite deal_loop_ok; [reflexivity|].
    rewrite length_skipn. unfold len in *. lia.
Qed.

Lemma deal_card_cases (d : CardDeck) :
  let l := cards d in
  ((len l <= 1)%Z -> deal_card d = (Raise OutOfCards, d)) /\
  ((1 < len l)%Z ->
   exists rest c, l = rest ++ [c] /\ deal_card d = (Ok c, {| cards := rest |})).
Proof.
  destruct d as [l]. simpl. unfold deal_card. simpl. split; intro H.
  - destruct (Z.gtb_spec (len l - 1) 0); [lia | reflexivity].
  - destruct (Z.gtb_spec (len l - 1) 0); [|lia].
    destruct (exists_last (l:=l)) as [rest [c ->]].
    + intros ->. unfold len in H. simpl in H. lia.
    + exists rest, c. split; [reflexivity | apply pop_snoc].
Qed.

(** C10. When [deal_cards] raises [OutOfCards] the deck is as it was before
    the call. *)
Theorem deal_cards_atomic (n : Z) (d : CardDeck) :
  fst (deal_cards n d) = Raise OutOfCards -> snd (deal_cards n d) = d.
Proof.
  unfold deal_cards. destruct (_ >? _)%Z; [|reflexivity].
  intro H. now apply deal_loop_no_OutOfCards in H.
Qed.

(** [deal_cards] raises nothing but [OutOfCards]. *)
Lemma deal_cards_no_IndexError (n : Z) (d : CardDeck) :
  fst (deal_cards n d) <> Raise IndexError.
Proof.
  destruct (deal_cards_cases n d) as [H1 H2].
  destruct (Z.le_gt_cases (len (cards d)) n) as [H|H].
  - rewrite (H1 H). discriminate.
  - rewrite (H2 H). discriminate.
Qed.

(** ** The order of the cards in the hand *)

Lemma is_max_card_perm (cs cs' : list Card) (c : Card) :
  Permutation cs cs' -> is_max_card cs c -> is_max_card cs' c.
Proof.
  intros H [Hin Hmax]. split.
  - now apply (Permutation_in _ H).
  - intros x Hx. apply Hmax. now apply (Permutation_in _ (Permutation_sym H)).
Qed.

Lemma highest_rank_perm (cs cs' : list Card) (r : CardRank) :
  Permutation cs cs' -> highest_rank cs r -> highest_rank cs' r.
Proof.
  intros H [Hin Hmax]. split.
  - apply (Permutation_in _ (Permutation_map rank H)). exact Hin.
  - intros x Hx. apply Hmax. now apply (Permutation_in _ (Permutation_sym H)).
Qed.

Lemma lowest_rank_perm (cs cs' : list Card) (r : CardRank) :
  Permutation cs cs' -> lowest_rank cs r -> lowest_rank cs' r.
Proof.
  intros H [Hin Hmin]. split.
  - apply (Permutation_in _ (Permutation_map rank H)). exact Hin.
  - intros x Hx. apply Hmin. now apply (Permutation_in _ (Permutation_sym H)).
Qed.

Lemma one_suit_perm (cs cs' : list Card) :
  Permutation cs cs' -> one_suit cs -> one_suit cs'.
Proof.
  intros H [s Hs]. exists s. intros c Hc. apply Hs.
  now apply (Permutation_in _ (Permutation_sym H)).
Qed.

Lemma straight_condition_perm (cs cs' : list Card) :
  Permutation cs cs' -> straight_condition cs -> straight_condition cs'.
Proof.
  intros H [Hnd [hi [lo [Hh [Hl E]]]]]. split.
  - apply (Permutation_NoDup (Permutation_map rank H)). exact Hnd.
  - exists hi, lo. eauto using highest_rank_perm, lowest_rank_perm.
Qed.

Lemma perm_nonempty (cs cs' : list Card) :
  Permutation cs cs' -> cs <> [] -> cs' <> [].
Proof.
  intros H Hne ->. apply Hne. now apply Permutation_nil, Permutation_sym.
Qed.

Section OrderOfCards.
Variables cs cs' : list Card.
Hypothesis Hperm : Permutation cs cs'.

Let Hsym : Permutation cs' cs := Permutation_sym Hperm.

Lemma high_card_perm : cs <> [] -> high_card cs' = high_card cs.
Proof.
  intro Hne. pose proof (perm_nonempty Hperm Hne) as Hne'.
  destruct (high_card_max Hne) as [c [-> Hc]].
  apply (high_card_spec c Hne'). now apply (is_max_card_perm Hperm).
Qed.

Lemma is_flush_perm : cs <> [] -> is_flush cs' = is_flush cs.
Proof.
  intro Hne. pose proof (perm_nonempty Hperm Hne) as Hne'.
  apply result_option_ext; try now apply is_flush_total.
  intro r. rewrite (is_flush_some r Hne), (is_flush_some r Hne').
  split; intros [Ho Hh]; split;
    eauto using one_suit_perm, highest_rank_perm.
Qed.

Lemma is_straight_perm : cs <> [] -> is_straight cs' = is_straight cs.
Proof.
  intro Hne. pose proof (perm_nonempty Hperm Hne) as Hne'.
  apply result_option_ext; try now apply is_straight_total.
  intro r. rewrite (is_straight_some r Hne), (is_straight_some r Hne').
  split; intros [Ho Hh]; split;
    eauto using straight_condition_perm, highest_rank_perm.
Qed.

Lemma is_straight_flush_perm :
  cs <> [] -> is_straight_flush cs' = is_straight_flush cs.
Proof.
  intro Hne. pose proof (perm_nonempty Hperm Hne) as Hne'.
  apply result_option_ext; try now apply is_straight_flush_total.
  intro r.
  rewrite (is_straight_flush_some r Hne), (is_straight_flush_some r Hne').
  rewrite (is_straight_perm Hne), (is_flush_perm Hne).
  split; intros [Hs [Hf Hh]]; (split; [|split]);
    eauto using highest_rank_perm.
Qed.

Lemma is_four_of_a_kind_perm :
  length cs = 5 -> is_four_of_a_kind cs' = is_four_of_a_kind cs.
Proof.
  intro Hlen.
  assert (Hlen' : length cs' = 5) by now rewrite <- (Permutation_length Hperm).
  apply option_ext. intro r.
  rewrite (@is_four_of_a_kind_some cs r Hlen), (@is_four_of_a_kind_some cs' r Hlen').
  now rewrite (rank_mult_perm r Hperm).
Qed.

Lemma is_three_of_a_kind_perm :
  length cs = 5 -> is_three_of_a_kind cs' = is_three_of_a_kind cs.
Proof.
  intro Hlen.
  assert (Hlen' : length cs' = 5) by now rewrite <- (Permutation_length Hperm).
  apply option_ext. intro r.
  rewrite (@is_three_of_a_kind_some cs r Hlen), (@is_three_of_a_kind_some cs' r Hlen').
  now rewrite (rank_mult_perm r Hperm).
Qed.

Lemma is_one_pair_perm : is_one_pair cs' = is_one_pair cs.
Proof.
  apply option_ext. intro r. rewrite !is_one_pair_some.
  split; eauto using only_rank_of_mult_perm.
Qed.
End OrderOfCards.

Lemma is_two_pairs_perm (cs cs' : list Card) :
  Permutation cs cs' ->
  is_two_pairs cs' = is_two_pairs cs \/
  is_two_pairs cs' = swap_pair (is_two_pairs cs).
Proof.
  intro H. destruct (is_two_pairs cs) as [[a b]|] eqn:E; simpl.
  - apply is_two_pairs_some in E. destruct E as [Hr _].
    apply (two_pair_ranks_perm H) in Hr.
    destruct (two_pair_ranks_order Hr) as [Hlt|Hlt]; [left|right];
      apply is_two_pairs_some; split; auto using two_pair_ranks_sym.
  - left. destruct (is_two_pairs cs') as [[a b]|] eqn:E'; [|reflexivity].
    apply is_two_pairs_some in E'. destruct E' as [Hr _].
    apply (two_pair_ranks_perm (Permutation_sym H)) in Hr.
    destruct (two_pair_ranks_order Hr) as [Hlt|Hlt].
    + assert (is_two_pairs cs = Some (a, b)) by now apply is_two_pairs_some.
      congruence.
    + assert (is_two_pairs cs = Some (b, a)).
      { apply is_two_pairs_some. split; [now apply two_pair_ranks_sym|exact Hlt]. }
      congruence.
Qed.

(** C5, as the code has it. On a hand of five cards every check but
    [is_two_pairs] returns the same result for every order of the cards;
    [is_two_pairs] returns the same two ranks, in one order or the other. *)
Theorem checks_order_independent (cs cs' : list Card) :
  length cs = 5 -> Permutation cs cs' ->
  is_straight_flush cs' = is_straight_flush cs /\
  is_four_of_a_kind cs' = is_four_of_a_kind cs /\
  is_full_house cs' = is_full_house cs /\
  is_flush cs' = is_flush cs /\
  is_straight cs' = is_straight cs /\
  is_three_of_a_kind cs' = is_three_of_a_kind cs /\
  is_one_pair cs' = is_one_pair cs /\
  high_card cs' = high_card cs /\
  (is_two_pairs cs' = is_two_pairs cs \/
   is_two_pairs cs' = swap_pair (is_two_pairs cs)).
Proof.
  intros Hlen H. pose proof (hand_nonempty Hlen) as Hne.
  repeat split.
  - now apply is_straight_flush_perm.
  - now apply is_four_of_a_kind_perm.
  - now apply is_full_house_perm.
  - now apply is_flush_perm.
  - now apply is_straight_perm.
  - now apply is_three_of_a_kind_perm.
  - now apply is_one_pair_perm.
  - now apply high_card_perm.
  - now apply is_two_pairs_perm.
Qed.

(** ** [evaluate] *)

(** C1. On a hand of five cards [evaluate] does not fail and reports exactly
    one classification: that of the first check that matches, the checks
    being tried in the order straight flush, four of a kind, full house,
    flush, straight, three of a kind, two pairs, one pair, high card, and
    the high card being reported when no other check matches. *)
Theorem evaluate_first_match (cs : list Card) :
  length cs = 5 ->
  exists c, evaluate cs = Ok [c] /\ first_match precedence cs = Ok (Some c).
Proof.
  intro H. apply hand_nonempty in H.
  destruct (is_straight_flush_total H) as [sf Esf].
  destruct (is_flush_total H) as [f Ef].
  destruct (is_straight_total H) as [s Es].
  destruct (high_card_max H) as [hc [Ehc _]].
  unfold evaluate, precedence, first_match, lift.
  rewrite Esf, Ef, Es, Ehc. cbn [bind option_map].
  destruct sf as [r|]; [eauto|].
  destruct (is_four_of_a_kind cs) as [r|]; [eauto|].
  destruct (is_full_house cs) as [[t p]|]; [eauto|].
  destruct f as [r|]; [eauto|].
  destruct s as [r|]; [eauto|].
  destruct (is_three_of_a_kind cs) as [r|]; [eauto|].
  destruct (is_two_pairs cs) as [[a b]|]; [eauto|].
  destruct (is_one_pair cs) as [r|]; eauto.
Qed.

(** ** Ace, 2, 3, 4, 5 *)

Lemma NoDup_wheel_ranks : NoDup wheel_ranks.
Proof.
  unfold wheel_ranks.
  repeat (constructor; [simpl; intuition discriminate|]). constructor.
Qed.

Section Wheel.
Variable cs : list Card.
Hypothesis Hranks : Permutation (ranks cs) wheel_ranks.

Lemma wheel_length : length cs = 5.
Proof. rewrite <- length_ranks. now rewrite (Permutation_length Hranks). Qed.

Lemma wheel_mult (r : CardRank) : rank_mult r cs <= 1.
Proof.
  unfold rank_mult, mult. apply (NoDup_count_occ CardRank_eq_dec).
  apply (Permutation_NoDup (Permutation_sym Hranks)), NoDup_wheel_ranks.
Qed.

Lemma wheel_highest : highest_rank cs ACE.
Proof.
  split.
  - apply (Permutation_in _ (Permutation_sym Hranks)). now left.
  - intros c _. pose proof (CardRank_value_bounds (rank c)). simpl. lia.
Qed.

Lemma wheel_lowest : lowest_rank cs DEUCE.
Proof.
  split.
  - apply (Permutation_in _ (Permutation_sym Hranks)). right. now left.
  - intros c _. pose proof (CardRank_value_bounds (rank c)). simpl. lia.
Qed.

Lemma wheel_not_straight : ~ straight_condition cs.
Proof.
  intros [_ [hi [lo [Hh [Hl E]]]]].
  rewrite <- (highest_rank_unique wheel_highest Hh) in E.
  rewrite <- (lowest_rank_unique wheel_lowest Hl) in E.
  discriminate E.
Qed.

Lemma wheel_is_straight : is_straight cs = Ok None.
Proof.
  apply is_straight_none; [apply hand_nonempty, wheel_length|].
  exact wheel_not_straight.
Qed.

Lemma wheel_is_straight_flush : is_straight_flush cs = Ok None.
Proof.
  pose proof (hand_nonempty wheel_length) as Hne.
  destruct (is_straight_flush_total Hne) as [[r|] E]; [|exact E].
  apply (is_straight_flush_some r Hne) in E. destruct E as [[a Ha] _].
  rewrite wheel_is_straight in Ha. discriminate.
Qed.

Lemma wheel_is_four_of_a_kind : is_four_of_a_kind cs = None.
Proof.
  destruct (is_four_of_a_kind cs) as [r|] eqn:E; [|reflexivity].
  apply (@is_four_of_a_kind_some cs r wheel_length) in E.
  pose proof (wheel_mult r). lia.
Qed.

Lemma wheel_is_three_of_a_kind : is_three_of_a_kind cs = None.
Proof.
  destruct (is_three_of_a_kind cs) as [r|] eqn:E; [|reflexivity].
  apply (@is_three_of_a_kind_some cs r wheel_length) in E.
  pose proof (wheel_mult r). lia.
Qed.

Lemma wheel_is_full_house : is_full_house cs = None.
Proof.
  destruct (is_full_house cs) as [[t p]|] eqn:E; [|reflexivity].
  apply is_full_house_some in E. destruct E as [[E _] _].
  pose proof (wheel_mult t). lia.
Qed.

Lemma wheel_is_two_pairs : is_two_pairs cs = None.
Proof.
  destruct (is_two_pairs cs) as [[a b]|] eqn:E; [|reflexivity].
  apply is_two_pairs_some in E. destruct E as [[_ [E _]] _].
  pose proof (wheel_mult a). lia.
Qed.

Lemma wheel_is_one_pair : is_one_pair cs = None.
Proof.
  destruct (is_one_pair cs) as [r|] eqn:E; [|reflexivity].
  apply is_one_pair_some in E. destruct E as [E _].
  pose proof (wheel_mult r). lia.
Qed.

Lemma wheel_high_card : exists s, In (ACE, s) cs /\ high_card cs = Ok (ACE, s).
Proof.
  destruct (high_card_max (hand_nonempty wheel_length)) as [c [E Hc]].
  pose proof (highest_rank_unique (max_card_highest Hc) wheel_highest) as Hr.
  destruct c as [r s]. unfold rank in Hr. simpl in Hr. subst r.
  exists s. split; [apply Hc | exact E].
Qed.

Hypothesis Hsuits : ~ one_suit cs.

Lemma wheel_is_flush : is_flush cs = Ok None.
Proof.
  pose proof (hand_nonempty wheel_length) as Hne.
  destruct (is_flush_total Hne) as [[r|] E]; [|exact E].
  exfalso. apply Hsuits. now apply (is_flush_some r Hne) in E.
Qed.

Lemma wheel_evaluate : exists s, In (ACE, s) cs /\ evaluate cs = Ok [HighCard (ACE, s)].
Proof.
  destruct wheel_high_card as [s [Hin E]]. exists s. split; [exact Hin|].
  unfold evaluate.
  rewrite wheel_is_straight_flush, wheel_is_four_of_a_kind, wheel_is_full_house,
    wheel_is_flush, wheel_is_straight, wheel_is_three_of_a_kind,
    wheel_is_two_pairs, wheel_is_one_pair, E.
  reflexivity.
Qed.
End Wheel.

(** C3. A hand whose ranks are Ace, 2, 3, 4 and 5, each once and in any
    order, and whose cards are not all of one suit, is not a straight for
    [is_straight], and [evaluate] reports the high card, which is the Ace of
    the hand. *)
Theorem wheel_is_high_card (cs : list Card) :
  Permutation (ranks cs) wheel_ranks -> ~ one_suit cs ->
  is_straight cs = Ok None /\
  exists s, In (ACE, s) cs /\ evaluate cs = Ok [HighCard (ACE, s)].
Proof.
  intros Hr Hs. split.
  - now apply wheel_is_straight.
  - now apply wheel_evaluate.
Qed.

(** ** The hands of the test suite and of the specification *)

Lemma fours_and_sevens_perm : Permutation sevens_and_fours fours_and_sevens.
Proof.
  exact (Permutation_app_tail [(TREY, HEARTS)]
           (Permutation_app_comm [(SEVEN, CLUBS); (SEVEN, SPADES)]
                                 [(FOUR, DIAMONDS); (FOUR, HEARTS)])).
Qed.

Lemma fours_and_sevens_ranks : two_pair_ranks fours_and_sevens FOUR SEVEN.
Proof.
  repeat split; try discriminate.
  intros r Hr. destruct r; first [now left | now right | discriminate Hr].
Qed.

Lemma wheel_hand_ranks : Permutation (ranks wheel_hand) wheel_ranks.
Proof.
  apply NoDup_Permutation.
  - repeat (constructor; [simpl; intuition discriminate|]). constructor.
  - apply NoDup_wheel_ranks.
  - intro r. destruct r; simpl; intuition congruence.
Qed.

Lemma wheel_hand_suits : ~ one_suit wheel_hand.
Proof.
  intros [s Hs].
  assert (H1 : suit (FIVE, HEARTS) = s) by (apply Hs; simpl; tauto).
  assert (H2 : suit (ACE, CLUBS) = s) by (apply Hs; simpl; tauto).
  simpl in *. congruence.
Qed.

(** C4, as the specification has it, fails: the pair that occurs first comes
    first, here the lower one. *)
Lemma is_two_pairs_lower_rank_first :
  length fours_and_sevens = 5 /\
  two_pair_ranks fours_and_sevens FOUR SEVEN /\
  is_two_pairs fours_and_sevens = Some (FOUR, SEVEN) /\
  CardRank_lt FOUR SEVEN = true.
Proof.
  split; [reflexivity|]. split; [exact fours_and_sevens_ranks|].
  split; reflexivity.
Qed.

(** C5, as the specification has it, fails for [is_two_pairs]: the same five
    cards in another order give another result. *)
Lemma is_two_pairs_order_dependent :
  length sevens_and_fours = 5 /\
  Permutation sevens_and_fours fours_and_sevens /\
  is_two_pairs sevens_and_fours = Some (SEVEN, FOUR) /\
  is_two_pairs fours_and_sevens = Some (FOUR, SEVEN) /\
  is_two_pairs sevens_and_fours <> is_two_pairs fours_and_sevens.
Proof.
  split; [reflexivity|]. split; [exact fours_and_sevens_perm|].
  split; [reflexivity|]. split; [reflexivity|]. discriminate.
Qed.

(** C9, as the specification has it, fails: on a full house
    [is_three_of_a_kind] matches although a rank occurs twice. *)
Lemma is_three_of_a_kind_on_full_house :
  length treys_over_sixes = 5 /\
  rank_mult TREY treys_over_sixes = 3 /\
  rank_mult SIX treys_over_sixes = 2 /\
  is_full_house treys_over_sixes = Some (TREY, SIX) /\
  is_three_of_a_kind treys_over_sixes = Some TREY.
Proof. repeat split. Qed.

(** C6. [deal_cards] asked for exactly the cards that remain, and
    [deal_card] on a deck of one card, raise [OutOfCards] and leave the deck
    alone, although the deck has enough cards. *)
Theorem deal_cards_exact_count_raises :
  deal_cards 5 {| cards := four_nines |}
  = (Raise OutOfCards, {| cards := four_nines |}) /\
  deal_card {| cards := [(ACE, SPADES)] |}
  = (Raise OutOfCards, {| cards := [(ACE, SPADES)] |}).
Proof. split; reflexivity. Qed.

(** [deal_cards] raises [OutOfCards] exactly when the count is at least the
    number of cards that remain. *)
Lemma deal_cards_raises_iff (n : Z) (d : CardDeck) :
  fst (deal_cards n d) = Raise OutOfCards <-> (len (cards d) <= n)%Z.
Proof.
  destruct (deal_cards_cases n d) as [H1 H2]. split.
  - intro H. destruct (Z.le_gt_cases (len (cards d)) n) as [Hle|Hgt]; [exact Hle|].
    rewrite (H2 Hgt) in H. discriminate.
  - intro H. now rewrite (H1 H).
Qed.

(** The scenarios of the specification. *)
Example evaluate_four_nines : evaluate four_nines = Ok [FourOfAKind NINE].
Proof. reflexivity. Qed.

Example evaluate_queen_high_hearts :
  evaluate queen_high_hearts = Ok [StraightFlush QUEEN].
Proof. reflexivity. Qed.

Example evaluate_seven_high_straight :
  evaluate seven_high_straight = Ok [Straight SEVEN].
Proof. reflexivity. Qed.

Example evaluate_sevens_and_fours :
  evaluate sevens_and_fours = Ok [TwoPair SEVEN FOUR].
Proof. reflexivity. Qed.

Example evaluate_treys_over_sixes :
  evaluate treys_over_sixes = Ok [FullHouse TREY SIX].
Proof. reflexivity. Qed.

Example evaluate_wheel_hand : evaluate wheel_hand = Ok [HighCard (ACE, CLUBS)].
Proof. reflexivity. Qed.

(** Without cards [high_card] and [is_straight] index an empty list. *)
Example high_card_no_cards : high_card [] = Raise IndexError.
Proof. reflexivity. Qed.

Example is_straight_no_cards : is_straight [] = Raise IndexError.
Proof. reflexivity. Qed.

(** ** The theorems at the hands of the test suite *)

Lemma evaluate_first_match_witness :
  length four_nines = 5 /\
  exists c, evaluate four_nines = Ok [c] /\
            first_match precedence four_nines = Ok (Some c).
Proof.
  split; [reflexivity | apply (@evaluate_first_match four_nines); reflexivity].
Defined.

Lemma is_straight_spec_witness :
  length seven_high_straight = 5 /\
  ((forall r, is_straight seven_high_straight = Ok (Some r) <->
              straight_condition seven_high_straight /\
              highest_rank seven_high_straight r) /\
   (is_straight seven_high_straight = Ok None <->
    ~ straight_condition seven_high_straight)).
Proof.
  split; [reflexivity | apply (@is_straight_spec seven_high_straight); reflexivity].
Defined.

Lemma wheel_is_high_card_witness :
  Permutation (ranks wheel_hand) wheel_ranks /\ ~ one_suit wheel_hand /\
  (is_straight wheel_hand = Ok None /\
   exists s, In (ACE, s) wheel_hand /\ evaluate wheel_hand = Ok [HighCard (ACE, s)]).
Proof.
  split; [exact wheel_hand_ranks|]. split; [exact wheel_hand_suits|].
  apply (@wheel_is_high_card wheel_hand); [exact wheel_hand_ranks | exact wheel_hand_suits].
Defined.

Lemma is_two_pairs_spec_witness :
  length fours_and_sevens = 5 /\
  ((forall a b, is_two_pairs fours_and_sevens = Some (a, b) <->
                two_pair_ranks fours_and_sevens a b /\
                before (ranks fours_and_sevens) a b) /\
   (forall a b, a <> b -> rank_mult a fours_and_sevens = 2 ->
                rank_mult b fours_and_sevens = 2 ->
                before (ranks fours_and_sevens) a b ->
                is_two_pairs fours_and_sevens = Some (a, b)) /\
   (is_two_pairs fours_and_sevens = None <->
    ~ exists a b, two_pair_ranks fours_and_sevens a b)).
Proof.
  split; [reflexivity | apply (@is_two_pairs_spec fours_and_sevens); reflexivity].
Defined.

Lemma checks_order_independent_witness :
  length sevens_and_fours = 5 /\
  Permutation sevens_and_fours fours_and_sevens /\
  (is_straight_flush fours_and_sevens = is_straight_flush sevens_and_fours /\
   is_four_of_a_kind fours_and_sevens = is_four_of_a_kind sevens_and_fours /\
   is_full_house fours_and_sevens = is_full_house sevens_and_fours /\
   is_flush fours_and_sevens = is_flush sevens_and_fours /\
   is_straight fours_and_sevens = is_straight sevens_and_fours /\
   is_three_of_a_kind fours_and_sevens = is_three_of_a_kind sevens_and_fours /\
   is_one_pair fours_and_sevens = is_one_pair sevens_and_fours /\
   high_card fours_and_sevens = high_card sevens_and_fours /\
   (is_two_pairs fours_and_sevens = is_two_pairs sevens_and_fours \/
    is_two_pairs fours_and_sevens = swap_pair (is_two_pairs sevens_and_fours))).
Proof.
  split; [reflexivity|]. split; [exact fours_and_sevens_perm|].
  apply (@checks_order_independent sevens_and_fours fours_and_sevens);
    [reflexivity | exact fours_and_sevens_perm].
Defined.

Lemma is_straight_flush_spec_witness :
  length queen_high_hearts = 5 /\
  ((forall r, is_straight_flush queen_high_hearts = Ok (Some r) <->
              matches (is_straight queen_high_hearts) /\
              matches (is_flush queen_high_hearts) /\
              highest_rank queen_high_hearts r) /\
   (is_straight_flush queen_high_hearts = Ok None <->
    ~ (matches (is_straight queen_high_hearts) /\
       matches (is_flush queen_high_hearts)))).
Proof.
  split; [reflexivity | apply (@is_straight_flush_spec queen_high_hearts); reflexivity].
Defined.

Lemma is_full_house_spec_witness :
  length treys_over_sixes = 5 /\
  ((forall t p, is_full_house treys_over_sixes = Some (t, p) <->
                only_rank_of_mult 3 treys_over_sixes t /\
                only_rank_of_mult 2 treys_over_sixes p) /\
   (forall t p, rank_mult t treys_over_sixes = 3 ->
                rank_mult p treys_over_sixes = 2 ->
                is_full_house treys_over_sixes = Some (t, p)) /\
   (is_full_house treys_over_sixes = None <->
    ~ exists t p, only_rank_of_mult 3 treys_over_sixes t /\
                  only_rank_of_mult 2 treys_over_sixes p) /\
   (forall cs', Permutation treys_over_sixes cs' ->
                is_full_house cs' = is_full_house treys_over_sixes)).
Proof.
  split; [reflexivity | apply (@is_full_house_spec treys_over_sixes); reflexivity].
Defined.

Lemma is_three_of_a_kind_spec_witness :
  length treys_over_sixes = 5 /\
  ((forall r, is_three_of_a_kind treys_over_sixes = Some r <->
              rank_mult r treys_over_sixes = 3) /\
   (is_three_of_a_kind treys_over_sixes = None <->
    forall r, rank_mult r treys_over_sixes <> 3) /\
   (forall t p, is_full_house treys_over_sixes = Some (t, p) ->
                is_three_of_a_kind treys_over_sixes = Some t)).
Proof.
  split; [reflexivity | apply (@is_three_of_a_kind_spec treys_over_sixes); reflexivity].
Defined.

Lemma deal_cards_atomic_witness :
  fst (deal_cards 5 {| cards := [(ACE, SPADES); (KING, HEARTS)] |}) = Raise OutOfCards /\
  snd (deal_cards 5 {| cards := [(ACE, SPADES); (KING, HEARTS)] |})
  = {| cards := [(ACE, SPADES); (KING, HEARTS)] |}.
Proof.
  split; [reflexivity|].
  apply (@deal_cards_atomic 5 {| cards := [(ACE, SPADES); (KING, HEARTS)] |}).
  reflexivity.
Defined.


(** * More of the deck, of the hand and of the evaluator *)

(** ** Dealing *)

(** [deal_cards] raises when the count is at least the number of cards that
    remain, and otherwise hands out the last cards of the list, last card
    first, and keeps the cards before them. *)
Lemma deal_cards_result (n : Z) (d : CardDeck) :
  deal_cards n d =
  if (len (cards d) <=? n)%Z then (Raise OutOfCards, d)
  else (Ok (rev (skipn (length (cards d) - Z.to_nat n) (cards d))),
        {| cards := firstn (length (cards d) - Z.to_nat n) (cards d) |}).
Proof.
  destruct (deal_cards_cases n d) as [H1 H2].
  destruct (Z.leb_spec (len (cards d)) n) as [H|H]; [now apply H1 | now apply H2].
Qed.

Lemma deal_cards_ok_inv (n : Z) (d d' : CardDeck) (dealt : list Card) :
  deal_cards n d = (Ok dealt, d') ->
  cards d = cards d' ++ rev dealt /\
  length dealt = Z.to_nat n /\
  (n < len (cards d))%Z.
Proof.
  rewrite deal_cards_result.
  destruct (Z.leb_spec (len (cards d)) n) as [H|H]; [discriminate|].
  intros [= <- <-]. simpl. rewrite rev_involutive, firstn_skipn.
  repeat split; [|exact H].
  rewrite length_rev, length_skipn. unfold len in H. lia.
Qed.

(** X1. What [deal_cards] returns. It raises [OutOfCards] exactly when the
    count is at least the number of cards in the deck. It returns cards
    exactly when the count is below that number: then the deck was the
    deck that remains followed by the cards dealt, in the reverse order of
    dealing, and as many cards were dealt as were asked for (none for a
    negative count). *)
Theorem deal_cards_outcome (n : Z) (d : CardDeck) :
  (fst (deal_cards n d) = Raise OutOfCards <-> (len (cards d) <= n)%Z) /\
  (forall dealt d',
      deal_cards n d = (Ok dealt, d') <->
      (n < len (cards d))%Z /\ cards d = cards d' ++ rev dealt /\
      length dealt = Z.to_nat n).
Proof.
  split; [apply deal_cards_raises_iff|].
  intros dealt d'. split.
  - intro H. apply deal_cards_ok_inv in H. tauto.
  - intros [Hn [E L]]. rewrite deal_cards_result.
    destruct (Z.leb_spec (len (cards d)) n) as [H|_]; [lia|].
    assert (Hk : length (cards d) - Z.to_nat n = length (cards d')).
    { rewrite E, length_app, length_rev. lia. }
    rewrite Hk, E, skipn_app, skipn_all, firstn_app, firstn_all, Nat.sub_diag.
    simpl. rewrite app_nil_r, rev_involutive. now destruct d'.
Qed.

(** X2. Dealing one card with [deal_card] is dealing the list of one card with
    [deal_cards], exception and deck included. *)
Theorem deal_cards_one (d : CardDeck) :
  deal_cards 1 d =
  match deal_card d with
  | (Ok c, d') => (Ok [c], d')
  | (Raise e, d') => (Raise e, d')
  end.
Proof.
  unfold deal_cards, deal_card.
  destruct (len (cards d) - 1 >? 0)%Z; [|reflexivity].
  simpl. destruct (pop d) as [[c|e] d']; reflexivity.
Qed.

(** X3. Two deals in a row give what one deal of both counts gives. *)
Theorem deal_cards_twice (n m : Z) (d d1 d2 : CardDeck) (l1 l2 : list Card) :
  (0 <= n)%Z -> (0 <= m)%Z ->
  deal_cards n d = (Ok l1, d1) -> deal_cards m d1 = (Ok l2, d2) ->
  deal_cards (n + m) d = (Ok (l1 ++ l2), d2).
Proof.
  intros Hn Hm H1 H2.
  destruct (deal_cards_ok_inv _ _ H1) as [E1 [L1 B1]].
  destruct (deal_cards_ok_inv _ _ H2) as [E2 [L2 B2]].
  assert (Hlen : length (cards d) = length (cards d2) + length l2 + length l1).
  { rewrite E1, E2, !length_app, !length_rev. lia. }
  assert (Hlen1 : length (cards d) = length (cards d1) + length l1).
  { rewrite E1, length_app, length_rev. lia. }
  rewrite deal_cards_result.
  destruct (Z.leb_spec (len (cards d)) (n + m)) as [H|H].
  - exfalso. unfold len in *. lia.
  - destruct d2 as [c2]. simpl in *. f_equal.
    + replace (length (cards d) - Z.to_nat (n + m)) with (length c2) by lia.
      rewrite E1, E2, <- app_assoc, skipn_app, skipn_all, Nat.sub_diag. simpl.
      now rewrite rev_app_distr, !rev_involutive.
    + f_equal.
      replace (length (cards d) - Z.to_nat (n + m)) with (length c2) by lia.
      rewrite E1, E2, <- app_assoc, firstn_app, firstn_all, Nat.sub_diag. simpl.
      now rewrite app_nil_r.
Qed.

(** X4. The first card of the list is never dealt: whatever the count and the
    outcome, the deck that [deal_cards] (or [deal_card]) leaves begins with
    the card the deck began with. *)
Theorem deal_keeps_first_card (n : Z) (d : CardDeck) :
  hd_error (cards (snd (deal_cards n d))) = hd_error (cards d) /\
  hd_error (cards (snd (deal_card d))) = hd_error (cards d).
Proof.
  assert (H : forall n, hd_error (cards (snd (deal_cards n d))) = hd_error (cards d)).
  { clear n. intro n. rewrite deal_cards_result.
    destruct (Z.leb_spec (len (cards d)) n) as [H|H]; [reflexivity|]. simpl.
    destruct (cards d) as [|c l]; [now rewrite firstn_nil|].
    unfold len in H. simpl length in *.
    destruct (S (length l) - Z.to_nat n) eqn:E; [lia | reflexivity]. }
  split; [apply H|].
  destruct (deal_card_cases d) as [H1 H2].
  destruct (Z.le_gt_cases (len (cards d)) 1) as [Hl|Hl].
  - now rewrite (H1 Hl).
  - destruct (H2 Hl) as [rest [c [E ->]]]. rewrite E. simpl.
    destruct rest; [|reflexivity].
    rewrite E in Hl. unfold len in Hl. simpl in Hl. lia.
Qed.

(** X5. A count below zero is served with no card, even by an empty deck, and
    a count of zero is served with no card by every deck but the empty
    one, which raises. *)
Theorem deal_cards_no_card (n : Z) (d : CardDeck) :
  (n <= 0)%Z ->
  deal_cards n d =
  if (n =? 0)%Z && (len (cards d) =? 0)%Z then (Raise OutOfCards, d) else (Ok [], d).
Proof.
  intro Hn. rewrite deal_cards_result.
  assert (Hl : (0 <= len (cards d))%Z) by (unfold len; lia).
  destruct (Z.leb_spec (len (cards d)) n) as [H|H];
    destruct (Z.eqb_spec n 0); destruct (Z.eqb_spec (len (cards d)) 0);
    simpl; try lia; try reflexivity.
  - replace (Z.to_nat n) with 0 by lia. rewrite Nat.sub_0_r.
    rewrite skipn_all, firstn_all. now destruct d.
  - replace (Z.to_nat n) with 0 by lia. rewrite Nat.sub_0_r.
    rewrite skipn_all, firstn_all. now destruct d.
  - replace (Z.to_nat n) with 0 by lia. rewrite Nat.sub_0_r.
    rewrite skipn_all, firstn_all. now destruct d.
Qed.

(** ** [reset] and [PokerHand.__init__] *)

Lemma new_cards_NoDup : NoDup new_cards.
Proof.
  assert (E : nodup Card_eq_dec new_cards = new_cards) by (vm_compute; reflexivity).
  rewrite <- E. apply NoDup_nodup.
Qed.

Lemma new_cards_all (c : Card) : In c new_cards.
Proof.
  destruct c as [r s]. destruct r, s; vm_compute; tauto.
Qed.

(** X6. After [reset], however the cards are shuffled, the deck holds 52 cards,
    no card twice and every card of the game. *)
Theorem reset_full_deck (shuffle : list Card -> list Card) :
  (forall l, Permutation (shuffle l) l) ->
  length (cards (reset shuffle)) = 52 /\
  NoDup (cards (reset shuffle)) /\
  forall c, In c (cards (reset shuffle)).
Proof.
  intro H. unfold reset. simpl. split; [|split].
  - now rewrite (Permutation_length (H new_cards)).
  - apply (Permutation_NoDup (Permutation_sym (H new_cards))), new_cards_NoDup.
  - intro c. apply (Permutation_in _ (Permutation_sym (H new_cards))), new_cards_all.
Qed.

Lemma NoDup_app_disjoint {A : Type} (l1 l2 : list A) (a : A) :
  NoDup (l1 ++ l2) -> In a l1 -> ~ In a l2.
Proof.
  induction l1 as [|x l1 IH]; simpl; [tauto|].
  intros H [->|Hin] H2.
  - inversion H as [|? ? Hn _]. apply Hn, in_or_app. now right.
  - inversion H. now apply IH.
Qed.

(** X7. A hand that [PokerHand] makes has five cards, the last five of the
    deck, which the deck loses; made from a deck without a card twice it
    has no card twice and no card that is still in the deck. *)
Theorem PokerHand_init_spec (d d' : CardDeck) (hand : list Card) :
  PokerHand_init d = (Ok hand, d') ->
  length hand = 5 /\
  cards d = cards d' ++ rev hand /\
  (NoDup (cards d) ->
   NoDup hand /\ NoDup (cards d') /\ forall c, In c hand -> ~ In c (cards d')).
Proof.
  unfold PokerHand_init. intro H.
  destruct (deal_cards_ok_inv _ _ H) as [E [L _]].
  split; [exact L|]. split; [exact E|].
  rewrite E. intro Hnd. split; [|split].
  - apply NoDup_app_remove_l, NoDup_rev in Hnd. now rewrite rev_involutive in Hnd.
  - now apply NoDup_app_remove_r in Hnd.
  - intros c Hc Hc'. apply (@NoDup_app_disjoint _ _ _ c Hnd Hc'). now apply in_rev in Hc.
Qed.

Lemma PokerHand_init_result (d : CardDeck) :
  PokerHand_init d =
  if (len (cards d) <=? 5)%Z then (Raise OutOfCards, d)
  else (Ok (rev (skipn (length (cards d) - 5) (cards d))),
        {| cards := firstn (length (cards d) - 5) (cards d) |}).
Proof. unfold PokerHand_init. now rewrite deal_cards_result. Qed.

(** [k] hands in a row can be made from a deck exactly when the deck holds
    more than [5 * k] cards (or no hand is asked for), and what stops them
    is [OutOfCards]. *)
Lemma deal_hands_count (k : nat) (d : CardDeck) :
  (k = 0 \/ 5 * k < length (cards d) ->
   exists hands d', deal_hands k d = (Ok hands, d') /\ length hands = k) /\
  (k <> 0 -> length (cards d) <= 5 * k ->
   exists d', deal_hands k d = (Raise OutOfCards, d')).
Proof.
  revert d. induction k as [|k IH]; intro d.
  - split; [|congruence]. intros _. now exists [], d.
  - cbn [deal_hands]. rewrite PokerHand_init_result.
    destruct (Z.leb_spec (len (cards d)) 5) as [H|H]; unfold len in H.
    + split.
      * intros [|]; [discriminate | lia].
      * intros _ _. now exists d.
    + set (d1 := {| cards := firstn (length (cards d) - 5) (cards d) |}).
      assert (L1 : length (cards d1) = length (cards d) - 5).
      { unfold d1. simpl. rewrite length_firstn. lia. }
      destruct (IH d1) as [IH1 IH2]. split.
      * intros [|Hk]; [discriminate|].
        destruct IH1 as [hands [d' [E L]]].
        { destruct k; [now left | right; lia]. }
        rewrite E. eexists. eexists. split; [reflexivity | simpl; lia].
      * intros _ Hk. destruct IH2 as [d' E]; [lia | lia |].
        rewrite E. now exists d'.
Qed.

(** X8. A deck fresh from [reset] serves ten hands in a row and raises
    [OutOfCards] for the eleventh. *)
Theorem reset_serves_ten_hands (shuffle : list Card -> list Card) (k : nat) :
  (forall l, Permutation (shuffle l) l) ->
  (k <= 10 -> exists hands d', deal_hands k (reset shuffle) = (Ok hands, d') /\
                               length hands = k) /\
  (10 < k -> exists d', deal_hands k (reset shuffle) = (Raise OutOfCards, d')).
Proof.
  intro H.
  assert (L : length (cards (reset shuffle)) = 52)
    by (unfold reset; simpl; now rewrite (Permutation_length (H new_cards))).
  destruct (deal_hands_count k (reset shuffle)) as [H1 H2]. split.
  - intro Hk. apply H1. lia.
  - intro Hk. apply H2; lia.
Qed.

(** ** [replace_cards] *)

Lemma length_with_item {A : Type} (l : list A) (p : nat) (x : A) :
  p < length l -> length (with_item l p x) = length l.
Proof.
  intro H. unfold with_item.
  rewrite length_app, length_firstn. cbn [length]. rewrite length_skipn. lia.
Qed.

Lemma nth_error_with_item {A : Type} (l : list A) (p q : nat) (x : A) :
  p < length l ->
  nth_error (with_item l p x) q = if q =? p then Some x else nth_error l q.
Proof.
  intro H. unfold with_item.
  assert (Hf : length (firstn p l) = p) by (rewrite length_firstn; lia).
  destruct (Nat.eqb_spec q p) as [->|Hn].
  - rewrite nth_error_app2 by lia. now rewrite Hf, Nat.sub_diag.
  - destruct (Nat.lt_ge_cases q p) as [Hlt|Hge].
    + rewrite nth_error_app1 by lia. rewrite nth_error_firstn.
      destruct (Nat.ltb_spec q p); [reflexivity | lia].
    + rewrite nth_error_app2 by lia. rewrite Hf.
      destruct (q - p) as [|k] eqn:E; [lia|]. cbn [nth_error].
      rewrite nth_error_skipn. f_equal. lia.
Qed.

Lemma setitem_valid {A : Type} (l : list A) (i : Z) (x : A) :
  (0 <= i < len l)%Z -> setitem l i x = Ok (with_item l (Z.to_nat i) x).
Proof.
  intro H. unfold setitem.
  destruct (Z.ltb_spec i 0); [lia|].
  destruct (Z.leb_spec 0 i); [|lia].
  destruct (Z.ltb_spec i (len l)); [reflexivity | lia].
Qed.

Lemma setitem_wrap {A : Type} (l : list A) (i : Z) (x : A) :
  (- len l <= i < 0)%Z ->
  setitem l i x = Ok (with_item l (Z.to_nat (i + len l)) x).
Proof.
  intro H. unfold setitem.
  destruct (Z.ltb_spec i 0); [|lia].
  destruct (Z.leb_spec 0 (i + len l)); [|lia].
  destruct (Z.ltb_spec (i + len l) (len l)); [reflexivity | lia].
Qed.

Lemma setitem_outside {A : Type} (l : list A) (i : Z) (x : A) :
  (len l <= i \/ i < - len l)%Z -> setitem l i x = Raise IndexError.
Proof.
  intro H. unfold setitem.
  destruct (Z.ltb_spec i 0).
  - destruct (Z.leb_spec 0 (i + len l)); [lia | reflexivity].
  - destruct (Z.leb_spec 0 i); [|lia].
    destruct (Z.ltb_spec i (len l)); [lia | reflexivity].
Qed.

Lemma setitem_length {A : Type} (l l' : list A) (i : Z) (x : A) :
  setitem l i x = Ok l' -> length l' = length l.
Proof.
  assert (Hl : (0 <= len l)%Z) by (unfold len; lia).
  destruct (Z.lt_ge_cases i (- len l)) as [H1|H1];
    [rewrite setitem_outside by lia; discriminate|].
  destruct (Z.lt_ge_cases i 0) as [H2|H2].
  - rewrite setitem_wrap by lia. intros [= <-].
    apply length_with_item. unfold len in *. lia.
  - destruct (Z.lt_ge_cases i (len l)) as [H3|H3];
      [|rewrite setitem_outside by lia; discriminate].
    rewrite setitem_valid by lia. intros [= <-].
    apply length_with_item. unfold len in *. lia.
Qed.

Lemma replace_cards_keeps_length (hand : list Card) (d : CardDeck) (indices : list Z) :
  length (fst (snd (replace_cards hand d indices))) = length hand.
Proof.
  revert hand d. induction indices as [|i rest IH]; intros hand d; simpl.
  - reflexivity.
  - destruct (deal_card d) as [[c|e] d']; [|reflexivity].
    destruct (setitem hand (i - 1) c) as [hand'|e] eqn:E; [|reflexivity].
    rewrite IH. now apply setitem_length in E.
Qed.

(** What [deal_card] returns, when it returns: the last card of the list,
    which the deck loses. *)
Lemma deal_card_ok (d d' : CardDeck) (c : Card) :
  deal_card d = (Ok c, d') -> cards d = cards d' ++ [c].
Proof.
  intro H. destruct (deal_card_cases d) as [H1 H2].
  destruct (Z.le_gt_cases (len (cards d)) 1) as [Hl|Hl].
  - rewrite (H1 Hl) in H. discriminate.
  - destruct (H2 Hl) as [rest [c' [E E']]]. rewrite E' in H.
    injection H as <- <-. exact E.
Qed.

Lemma deal_card_some (d : CardDeck) :
  1 < length (cards d) ->
  exists c d', deal_card d = (Ok c, d') /\ cards d = cards d' ++ [c].
Proof.
  intro H. destruct (deal_card_cases d) as [_ H2].
  destruct H2 as [rest [c [E E']]]; [unfold len; lia|].
  exists c, {| cards := rest |}. split; [exact E' | exact E].
Qed.


(** X10. With every index between 1 and the size of the hand, and more cards in
    the deck than indices, [replace_cards] succeeds; the deck loses one card
    for every index; the cards at the places that are not named stay; and
    the place named by an index that is not named again later holds the
    card dealt for that index, the [j]-th index getting the [j]-th card from
    the end of the deck. *)
Theorem replace_cards_spec (hand : list Card) (d : CardDeck) (indices : list Z) :
  Forall (fun i => (1 <= i <= len hand)%Z) indices ->
  length indices < length (cards d) ->
  exists hand',
    replace_cards hand d indices =
    (Ok tt, (hand', {| cards := firstn (length (cards d) - length indices) (cards d) |})) /\
    (forall p, (forall i, In i indices -> Z.to_nat (i - 1) <> p) ->
               nth_error hand' p = nth_error hand p) /\
    (forall j i, nth_error indices j = Some i ->
                 (forall j', j < j' -> nth_error indices j' <> Some i) ->
                 nth_error hand' (Z.to_nat (i - 1)) = nth_error (rev (cards d)) j).
Proof.
  revert hand d. induction indices as [|i rest IH]; intros hand d Hv Hlen.
  - exists hand. simpl. rewrite Nat.sub_0_r, firstn_all. destruct d as [l].
    split; [reflexivity|]. split; [reflexivity|].
    intros j i Hj. now destruct j.
  - simpl in Hlen. inversion Hv as [|? ? Hi Hrest]; subst.
    destruct (@deal_card_some d) as [c [d1 [Ed Ec]]]; [lia|].
    cbn [replace_cards]. rewrite Ed.
    rewrite setitem_valid by lia.
    set (p0 := Z.to_nat (i - 1)).
    assert (Hp0 : p0 < length hand) by (unfold p0, len in *; lia).
    assert (L1 : length (cards d) = S (length (cards d1))).
    { rewrite Ec, length_app. simpl. lia. }
    destruct (IH (with_item hand p0 c) d1) as [hand' [E [Hkeep Hnew]]].
    { unfold len. rewrite length_with_item by exact Hp0. exact Hrest. }
    { lia. }
    exists hand'. split; [|split].
    + rewrite E. do 3 f_equal. simpl length.
      replace (length (cards d) - S (length rest))
        with (length (cards d1) - length rest) by lia.
      rewrite Ec, firstn_app.
      replace (length (cards d1) - length rest - length (cards d1)) with 0 by lia.
      simpl. now rewrite app_nil_r.
    + intros p Hp. rewrite Hkeep.
      * rewrite nth_error_with_item by exact Hp0.
        destruct (Nat.eqb_spec p p0) as [->|]; [|reflexivity].
        exfalso. apply (Hp i); [now left | reflexivity].
      * intros i' Hi'. apply Hp. now right.
    + intros j i' Hj Hlater. rewrite Ec, rev_app_distr. simpl.
      destruct j as [|j]; simpl in Hj.
      * injection Hj as <-. rewrite Hkeep.
        { rewrite nth_error_with_item by exact Hp0. now rewrite Nat.eqb_refl. }
        intros i' Hi' Heq. apply In_nth_error in Hi'. destruct Hi' as [j' Hj'].
        apply (Hlater (S j')); [lia|]. simpl. rewrite Hj'. f_equal.
        inversion Hv as [|? ? _ Hall]; subst. rewrite Forall_forall in Hall.
        apply nth_error_In in Hj'. specialize (Hall i' Hj'). fold p0 in Heq.
        unfold p0 in Heq. lia.
      * simpl. apply Hnew; [exact Hj|].
        intros j' Hlt. apply (Hlater (S j')). lia.
Qed.

Lemma deal_card_raise (d d' : CardDeck) (e : exn) :
  deal_card d = (Raise e, d') -> e = OutOfCards /\ d' = d.
Proof.
  intro H. destruct (deal_card_cases d) as [H1 H2].
  destruct (Z.le_gt_cases (len (cards d)) 1) as [Hl|Hl].
  - rewrite (H1 Hl) in H. injection H as <- <-. now split.
  - destruct (H2 Hl) as [rest [c [_ E]]]. rewrite E in H. discriminate.
Qed.

(** X9. Whatever the indices and whatever the outcome, [replace_cards] leaves a
    hand of as many cards as it found, and a deck that is the deck it found
    without its last cards, at most one for every index. *)
Theorem replace_cards_invariant (hand : list Card) (d : CardDeck) (indices : list Z) :
  length (fst (snd (replace_cards hand d indices))) = length hand /\
  exists k, k <= length indices /\
            cards (snd (snd (replace_cards hand d indices)))
            = firstn (length (cards d) - k) (cards d).
Proof.
  split; [apply replace_cards_keeps_length|].
  revert hand d. induction indices as [|i rest IH]; intros hand d.
  - exists 0. simpl. now rewrite Nat.sub_0_r, firstn_all.
  - cbn [replace_cards].
    destruct (deal_card d) as [[c|e] d1] eqn:Ed.
    + apply deal_card_ok in Ed.
      assert (Hshrink : forall k, firstn (length (cards d1) - k) (cards d1)
                                  = firstn (length (cards d) - S k) (cards d)).
      { intro k. rewrite Ed, length_app, firstn_app. simpl.
        replace (length (cards d1) + 1 - S k) with (length (cards d1) - k) by lia.
        replace (length (cards d1) - k - length (cards d1)) with 0 by lia.
        simpl. now rewrite app_nil_r. }
      destruct (setitem hand (i - 1) c) as [hand'|e].
      * destruct (IH hand' d1) as [k [Hk E]]. exists (S k).
        split; [simpl; lia|]. now rewrite E.
      * exists 1. split; [simpl; lia|]. simpl.
        rewrite <- Hshrink. now rewrite Nat.sub_0_r, firstn_all.
    + apply deal_card_raise in Ed. destruct Ed as [_ ->].
      exists 0. split; [lia|]. simpl. now rewrite Nat.sub_0_r, firstn_all.
Qed.




(** X12. One index of [replace_cards], once its card [c] has been dealt. An
    index from 1 to the size of the hand names the card at that place; an
    index from 0 down to above minus the size counts from the end, 0 naming
    the last card; [c] takes that place and the next index is served. Every
    other index raises [IndexError]: the hand is as it was, the card [c]
    has left the deck, and the indices after it are not served. *)
Theorem replace_cards_step
        (hand : list Card) (d d' : CardDeck) (c : Card) (index : Z) (rest : list Z) :
  deal_card d = (Ok c, d') ->
  replace_cards hand d (index :: rest) =
  if ((- len hand <? index) && (index <=? len hand))%Z
  then replace_cards
         (with_item hand (Z.to_nat ((index - 1) mod len hand)) c) d' rest
  else (Raise IndexError, (hand, d')).
Proof.
  intro Hd. cbn [replace_cards]. rewrite Hd.
  assert (Hl : (0 <= len hand)%Z) by (unfold len; lia).
  destruct (Z.ltb_spec (- len hand) index) as [H1|H1];
    [destruct (Z.leb_spec index (len hand)) as [H2|H2]|]; cbn [andb].
  - destruct (Z.lt_ge_cases (index - 1) 0) as [Hneg|Hpos].
    + rewrite setitem_wrap by lia.
      replace ((index - 1) mod len hand)%Z with (index - 1 + len hand)%Z;
        [reflexivity|].
      apply Z.mod_unique with (q := (-1)%Z); lia.
    + rewrite setitem_valid by lia.
      now rewrite Z.mod_small by lia.
  - now rewrite setitem_outside by lia.
  - now rewrite setitem_outside by lia.
Qed.

(** ** [evaluate] beyond hands of five cards *)

Lemma evaluate_total (cs : list Card) : cs <> [] -> exists c, evaluate cs = Ok [c].
Proof.
  intro H.
  destruct (is_straight_flush_total H) as [sf Esf].
  destruct (is_flush_total H) as [f Ef].
  destruct (is_straight_total H) as [s Es].
  destruct (high_card_max H) as [hc [Ehc _]].
  unfold evaluate. rewrite Esf, Ef, Es, Ehc. cbn [bind].
  destruct sf as [r|]; [eauto|].
  destruct (is_four_of_a_kind cs) as [r|]; [eauto|].
  destruct (is_full_house cs) as [[t p]|]; [eauto|].
  destruct f as [r|]; [eauto|].
  destruct s as [r|]; [eauto|].
  destruct (is_three_of_a_kind cs) as [r|]; [eauto|].
  destruct (is_two_pairs cs) as [[a b]|]; [eauto|].
  destruct (is_one_pair cs) as [r|]; eauto.
Qed.

(** X13. [evaluate] prints one line for every hand that has a card, of whatever
    size, and raises [IndexError] for the hand without cards. *)
Theorem evaluate_needs_a_card (cs : list Card) :
  ((exists c, evaluate cs = Ok [c]) <-> cs <> []) /\
  (evaluate cs = Raise IndexError <-> cs = []).
Proof.
  destruct cs as [|c0 cs].
  - split; split; try reflexivity; try congruence.
    intros [c H]. discriminate H.
  - destruct (@evaluate_total (c0 :: cs)) as [c E]; [discriminate|].
    rewrite E. split; split; try discriminate; eauto.
Qed.

(** X14. A hand made by [PokerHand] can be evaluated after every call of
    [replace_cards], whatever the indices and whether the call succeeded or
    raised: [evaluate] prints one line. *)
Theorem evaluate_after_replace_cards
        (d d1 : CardDeck) (hand : list Card) (indices : list Z) :
  PokerHand_init d = (Ok hand, d1) ->
  exists c, evaluate (fst (snd (replace_cards hand d1 indices))) = Ok [c].
Proof.
  intro H. unfold PokerHand_init in H.
  apply deal_cards_ok_inv in H. destruct H as [_ [L _]].
  apply evaluate_total. intro E.
  pose proof (replace_cards_keeps_length hand d1 indices) as Hl.
  rewrite E, L in Hl. discriminate Hl.
Qed.

(** ** The checks that the evaluator runs besides *)

(** X15. On a hand of five cards [is_four_of_a_kind] returns the rank that
    occurs four times, and [None] when no rank does. *)
Theorem is_four_of_a_kind_spec (cs : list Card) :
  length cs = 5 ->
  (forall r, is_four_of_a_kind cs = Some r <-> rank_mult r cs = 4) /\
  (is_four_of_a_kind cs = None <-> forall r, rank_mult r cs <> 4).
Proof.
  intro Hlen. split.
  - intro r. now apply is_four_of_a_kind_some.
  - destruct (is_four_of_a_kind cs) as [r|] eqn:E.
    + split; [discriminate|]. intro H. exfalso. apply (H r).
      now apply is_four_of_a_kind_some.
    + split; [|reflexivity]. intros _ r Hr.
      apply (@is_four_of_a_kind_some cs r Hlen) in Hr. congruence.
Qed.

(** X16. On a hand that has a card [is_flush] returns the highest rank of the
    hand when all cards are of one suit, and [None] when they are not; on
    the hand without cards it returns [None] and does not raise. *)
Theorem is_flush_spec (cs : list Card) :
  (cs <> [] ->
   (forall r, is_flush cs = Ok (Some r) <-> one_suit cs /\ highest_rank cs r) /\
   (is_flush cs = Ok None <-> ~ one_suit cs)) /\
  is_flush [] = Ok None.
Proof.
  split; [|reflexivity]. intro Hne. split.
  - intro r. now apply is_flush_some.
  - destruct (is_flush_total Hne) as [[r|] E]; rewrite E.
    + split; [discriminate|]. intro H. exfalso. apply H.
      now apply (is_flush_some r Hne) in E.
    + split; [|reflexivity]. intros _ H.
      apply (matches_is_flush Hne) in H. destruct H as [r Hr]. congruence.
Qed.

(** X17. [is_one_pair] returns the rank that occurs twice when it is the only
    such rank, for a hand of any size. So it returns [None] on a hand for
    which [is_two_pairs] matches, and the rank of the pair on a hand for
    which [is_full_house] matches. *)
Theorem is_one_pair_spec (cs : list Card) :
  (forall r, is_one_pair cs = Some r <-> only_rank_of_mult 2 cs r) /\
  (forall a b, is_two_pairs cs = Some (a, b) -> is_one_pair cs = None) /\
  (forall t p, is_full_house cs = Some (t, p) -> is_one_pair cs = Some p).
Proof.
  split; [|split].
  - intro r. apply is_one_pair_some.
  - intros a b H. apply is_two_pairs_some in H.
    destruct H as [[Hab [Ha [Hb _]]] _].
    destruct (is_one_pair cs) as [r|] eqn:E; [|reflexivity].
    apply is_one_pair_some in E. destruct E as [_ Hu].
    exfalso. apply Hab. now rewrite (Hu a Ha), (Hu b Hb).
  - intros t p H. apply is_full_house_some in H. destruct H as [_ Hp].
    now apply is_one_pair_some.
Qed.

Lemma key_le_Card_lt (a b : Card) : key_le a b <-> Card_lt b a = false.
Proof. rewrite Card_lt_key, Z.ltb_ge. reflexivity. Qed.

(** X18. On a hand that has a card [high_card] returns a card of the hand such
    that no card of the hand is above it in the order of tuples; its rank
    is the highest rank of the hand. On the hand without cards it raises
    [IndexError]. *)
Theorem high_card_greatest (cs : list Card) :
  (cs <> [] ->
   exists c, high_card cs = Ok c /\ In c cs /\
             (forall x, In x cs -> Card_lt c x = false) /\
             highest_rank cs (rank c)) /\
  high_card [] = Raise IndexError.
Proof.
  split; [|reflexivity]. intro Hne.
  destruct (high_card_max Hne) as [c [E Hc]]. exists c.
  split; [exact E|]. split; [apply Hc|]. split.
  - intros x Hx. apply key_le_Card_lt. now apply Hc.
  - now apply max_card_highest.
Qed.

Lemma NoDup_rank_values (rs : list CardRank) :
  NoDup rs -> NoDup (map CardRank_value rs).
Proof.
  induction 1 as [|r rs Hr Hnd IH]; simpl; constructor; [|exact IH].
  intro H. apply in_map_iff in H. destruct H as [r' [E Hr']].
  apply CardRank_value_inj in E. now subst.
Qed.

(** X19. A hand of five cards for which [is_straight] returns [r] holds the
    five ranks that end in [r]: for every step from 0 to 4 a card whose
    rank value is that of [r] less the step. *)
Theorem is_straight_consecutive (cs : list Card) (r : CardRank) :
  length cs = 5 -> is_straight cs = Ok (Some r) ->
  forall k, (0 <= k <= 4)%Z ->
  exists c, In c cs /\ CardRank_value (rank c) = (CardRank_value r - k)%Z.
Proof.
  intros Hlen H k Hk.
  apply (is_straight_some r (hand_nonempty Hlen)) in H.
  destruct H as [[Hnd [hi [lo [Hh [Hl E]]]]] Hr].
  rewrite (highest_rank_unique Hh Hr) in *. clear Hh.
  set (v := CardRank_value r) in *.
  set (vs := map CardRank_value (ranks cs)).
  assert (Hincl : incl vs [v - 4; v - 3; v - 2; v - 1; v]%Z).
  { intros x Hx. unfold vs, ranks in Hx. rewrite map_map in Hx.
    apply in_map_iff in Hx. destruct Hx as [c [<- Hc]].
    destruct Hr as [_ Hmax]. destruct Hl as [_ Hmin].
    specialize (Hmax c Hc). specialize (Hmin c Hc). fold v in Hmax.
    assert (Hcases : (CardRank_value (rank c) = v - 4 \/
                      CardRank_value (rank c) = v - 3 \/
                      CardRank_value (rank c) = v - 2 \/
                      CardRank_value (rank c) = v - 1 \/
                      CardRank_value (rank c) = v)%Z) by lia.
    simpl. intuition auto. }
  assert (Hback : incl [v - 4; v - 3; v - 2; v - 1; v]%Z vs).
  { apply NoDup_length_incl; [| |exact Hincl].
    - now apply NoDup_rank_values.
    - unfold vs. rewrite length_map, length_ranks, Hlen. simpl. lia. }
  assert (Hin : In (v - k)%Z vs).
  { apply Hback. simpl.
    assert (k = 4 \/ k = 3 \/ k = 2 \/ k = 1 \/ k = 0)%Z as Hc by lia.
    destruct Hc as [-> | [-> | [-> | [-> | ->]]]]; try tauto.
    do 4 right. left. lia. }
  unfold vs, ranks in Hin. rewrite map_map in Hin.
  apply in_map_iff in Hin. destruct Hin as [c [Ec Hc]]. now exists c.
Qed.

(** ** What [evaluate] prints, by the make-up of the hand *)

(** The line printed, from what the checks return, in their order. *)
Lemma evaluate_by_checks (cs : list Card) :
  cs <> [] ->
  exists sf f s hc,
    is_straight_flush cs = Ok sf /\ is_flush cs = Ok f /\
    is_straight cs = Ok s /\ high_card cs = Ok hc /\
    evaluate cs =
    Ok [match sf with
        | Some r => StraightFlush r
        | None =>
        match is_four_of_a_kind cs with
        | Some r => FourOfAKind r
        | None =>
        match is_full_house cs with
        | Some (t, p) => FullHouse t p
        | None =>
        match f with
        | Some r => Flush r
        | None =>
        match s with
        | Some r => Straight r
        | None =>
        match is_three_of_a_kind cs with
        | Some r => ThreeOfAKind r
        | None =>
        match is_two_pairs cs with
        | Some (a, b) => TwoPair a b
        | None =>
        match is_one_pair cs with
        | Some r => OnePair r
        | None => HighCard hc
        end end end end end end end end].
Proof.
  intro H.
  destruct (is_straight_flush_total H) as [sf Esf].
  destruct (is_flush_total H) as [f Ef].
  destruct (is_straight_total H) as [s Es].
  destruct (high_card_max H) as [hc [Ehc _]].
  exists sf, f, s, hc. repeat (split; [assumption|]).
  unfold evaluate. rewrite Esf, Ef, Es, Ehc. cbn [bind].
  destruct sf as [r|]; [reflexivity|].
  destruct (is_four_of_a_kind cs) as [r|]; [reflexivity|].
  destruct (is_full_house cs) as [[t p]|]; [reflexivity|].
  destruct f as [r|]; [reflexivity|].
  destruct s as [r|]; [reflexivity|].
  destruct (is_three_of_a_kind cs) as [r|]; [reflexivity|].
  destruct (is_two_pairs cs) as [[a b]|]; [reflexivity|].
  destruct (is_one_pair cs) as [r|]; reflexivity.
Qed.

Ltac by_checks cs Hne :=
  let sf := fresh "sf" in let f := fresh "f" in
  let s := fresh "s" in let hc := fresh "hc" in
  let Esf := fresh "Esf" in let Ef := fresh "Ef" in
  let Es := fresh "Es" in let Ehc := fresh "Ehc" in let E := fresh "E" in
  let close := (split; intro; intuition congruence) in
  destruct (@evaluate_by_checks cs Hne) as [sf [f [s [hc [Esf [Ef [Es [Ehc E]]]]]]]];
  rewrite E, ?Esf, ?Ef, ?Es, ?Ehc; clear E Esf Ef Es Ehc;
  destruct sf as [?|]; [close|];
  destruct (is_four_of_a_kind cs) as [?|]; [close|];
  destruct (is_full_house cs) as [[? ?]|]; [close|];
  destruct f as [?|]; [close|];
  destruct s as [?|]; [close|];
  destruct (is_three_of_a_kind cs) as [?|]; [close|];
  destruct (is_two_pairs cs) as [[? ?]|]; [close|];
  destruct (is_one_pair cs) as [?|]; close.

Lemma evaluate_StraightFlush_checks (cs : list Card) (r : CardRank) :
  cs <> [] ->
  evaluate cs = Ok [StraightFlush r] <-> is_straight_flush cs = Ok (Some r).
Proof. intro Hne. by_checks cs Hne. Qed.

Lemma evaluate_FourOfAKind_checks (cs : list Card) (r : CardRank) :
  cs <> [] ->
  evaluate cs = Ok [FourOfAKind r] <->
  is_straight_flush cs = Ok None /\ is_four_of_a_kind cs = Some r.
Proof. intro Hne. by_checks cs Hne. Qed.

Lemma evaluate_FullHouse_checks (cs : list Card) (t p : CardRank) :
  cs <> [] ->
  evaluate cs = Ok [FullHouse t p] <->
  is_straight_flush cs = Ok None /\ is_four_of_a_kind cs = None /\
  is_full_house cs = Some (t, p).
Proof. intro Hne. by_checks cs Hne. Qed.

Lemma evaluate_Flush_checks (cs : list Card) (r : CardRank) :
  cs <> [] ->
  evaluate cs = Ok [Flush r] <->
  is_straight_flush cs = Ok None /\ is_four_of_a_kind cs = None /\
  is_full_house cs = None /\ is_flush cs = Ok (Some r).
Proof. intro Hne. by_checks cs Hne. Qed.

Lemma evaluate_Straight_checks (cs : list Card) (r : CardRank) :
  cs <> [] ->
  evaluate cs = Ok [Straight r] <->
  is_straight_flush cs = Ok None /\ is_four_of_a_kind cs = None /\
  is_full_house cs = None /\ is_flush cs = Ok None /\
  is_straight cs = Ok (Some r).
Proof. intro Hne. by_checks cs Hne. Qed.

Lemma evaluate_ThreeOfAKind_checks (cs : list Card) (r : CardRank) :
  cs <> [] ->
  evaluate cs = Ok [ThreeOfAKind r] <->
  is_straight_flush cs = Ok None /\ is_four_of_a_kind cs = None /\
  is_full_house cs = None /\ is_flush cs = Ok None /\
  is_straight cs = Ok None /\ is_three_of_a_kind cs = Some r.
Proof. intro Hne. by_checks cs Hne. Qed.

Lemma evaluate_TwoPair_checks (cs : list Card) (a b : CardRank) :
  cs <> [] ->
  evaluate cs = Ok [TwoPair a b] <->
  is_straight_flush cs = Ok None /\ is_four_of_a_kind cs = None /\
  is_full_house cs = None /\ is_flush cs = Ok None /\
  is_straight cs = Ok None /\ is_three_of_a_kind cs = None /\
  is_two_pairs cs = Some (a, b).
Proof. intro Hne. by_checks cs Hne. Qed.

Lemma evaluate_OnePair_checks (cs : list Card) (r : CardRank) :
  cs <> [] ->
  evaluate cs = Ok [OnePair r] <->
  is_straight_flush cs = Ok None /\ is_four_of_a_kind cs = None /\
  is_full_house cs = None /\ is_flush cs = Ok None /\
  is_straight cs = Ok None /\ is_three_of_a_kind cs = None /\
  is_two_pairs cs = None /\ is_one_pair cs = Some r.
Proof. intro Hne. by_checks cs Hne. Qed.

Lemma evaluate_HighCard_checks (cs : list Card) (c : Card) :
  cs <> [] ->
  evaluate cs = Ok [HighCard c] <->
  is_straight_flush cs = Ok None /\ is_four_of_a_kind cs = None /\
  is_full_house cs = None /\ is_flush cs = Ok None /\
  is_straight cs = Ok None /\ is_three_of_a_kind cs = None /\
  is_two_pairs cs = None /\ is_one_pair cs = None /\ high_card cs = Ok c.
Proof. intro Hne. by_checks cs Hne. Qed.

Section FiveCards.
Variable cs : list Card.
Hypothesis Hlen : length cs = 5.

Lemma five_nonempty : cs <> [].
Proof. now apply hand_nonempty. Qed.

Lemma five_mult_two (a b : CardRank) :
  a <> b -> rank_mult a cs + rank_mult b cs <= 5.
Proof.
  intro H. pose proof (mult_two_le (ranks cs) H) as Hm.
  rewrite length_ranks, Hlen in Hm. exact Hm.
Qed.

Lemma five_mult_three (a b c : CardRank) :
  a <> b -> a <> c -> b <> c ->
  rank_mult a cs + rank_mult b cs + rank_mult c cs <= 5.
Proof.
  intros H1 H2 H3. pose proof (mult_three_le (ranks cs) H1 H2 H3) as Hm.
  rewrite length_ranks, Hlen in Hm. exact Hm.
Qed.

Lemma straight_mult (r : CardRank) : straight_condition cs -> rank_mult r cs <= 1.
Proof.
  intros [Hnd _]. unfold rank_mult, mult.
  now apply (NoDup_count_occ CardRank_eq_dec).
Qed.

Lemma five_straight_flush_some (r : CardRank) :
  is_straight_flush cs = Ok (Some r) <->
  straight_condition cs /\ one_suit cs /\ highest_rank cs r.
Proof.
  rewrite (is_straight_flush_some r five_nonempty).
  rewrite (matches_is_straight five_nonempty), (matches_is_flush five_nonempty).
  reflexivity.
Qed.

Lemma five_straight_flush_none :
  is_straight_flush cs = Ok None <-> ~ (straight_condition cs /\ one_suit cs).
Proof.
  destruct (is_straight_flush_total five_nonempty) as [[r|] E]; rewrite E.
  - split; [discriminate|]. intro H. exfalso. apply H.
    apply five_straight_flush_some in E. tauto.
  - split; [|reflexivity]. intros _ [Hs Ho].
    destruct (item_last_sorted five_nonempty) as [hi [_ Hhi]].
    assert (is_straight_flush cs = Ok (Some (rank hi))).
    { apply five_straight_flush_some. auto using max_card_highest. }
    congruence.
Qed.

Lemma five_flush_none : is_flush cs = Ok None <-> ~ one_suit cs.
Proof.
  destruct (is_flush_total five_nonempty) as [[r|] E]; rewrite E.
  - split; [discriminate|]. intro H. exfalso. apply H.
    now apply (is_flush_some r five_nonempty) in E.
  - split; [|reflexivity]. intros _ H.
    apply (matches_is_flush five_nonempty) in H. destruct H as [r Hr]. congruence.
Qed.

Lemma five_four_none :
  is_four_of_a_kind cs = None <-> forall r, rank_mult r cs <> 4.
Proof.
  destruct (is_four_of_a_kind cs) as [r|] eqn:E.
  - split; [discriminate|]. intro H. exfalso. apply (H r).
    now apply is_four_of_a_kind_some.
  - split; [|reflexivity]. intros _ r Hr.
    apply (@is_four_of_a_kind_some cs r Hlen) in Hr. congruence.
Qed.

Lemma five_three_none :
  is_three_of_a_kind cs = None <-> forall r, rank_mult r cs <> 3.
Proof.
  destruct (is_three_of_a_kind cs) as [r|] eqn:E.
  - split; [discriminate|]. intro H. exfalso. apply (H r).
    now apply is_three_of_a_kind_some.
  - split; [|reflexivity]. intros _ r Hr.
    apply (@is_three_of_a_kind_some cs r Hlen) in Hr. congruence.
Qed.

Lemma five_full_house_some (t p : CardRank) :
  is_full_house cs = Some (t, p) <-> rank_mult t cs = 3 /\ rank_mult p cs = 2.
Proof.
  rewrite is_full_house_some. split.
  - intros [[Ht _] [Hp _]]. now split.
  - intros [Ht Hp]. now apply full_house_partition.
Qed.

Lemma five_full_house_none :
  is_full_house cs = None <->
  forall t p, ~ (rank_mult t cs = 3 /\ rank_mult p cs = 2).
Proof.
  destruct (is_full_house cs) as [[t p]|] eqn:E.
  - split; [discriminate|]. intro H. exfalso. apply (H t p).
    now apply five_full_house_some.
  - split; [|reflexivity]. intros _ t p H.
    apply five_full_house_some in H. congruence.
Qed.

Lemma five_two_pairs_some (a b : CardRank) :
  is_two_pairs cs = Some (a, b) <->
  (a <> b /\ rank_mult a cs = 2 /\ rank_mult b cs = 2) /\ before (ranks cs) a b.
Proof.
  rewrite is_two_pairs_some. split.
  - intros [[Hab [Ha [Hb _]]] Hlt]. tauto.
  - intros [[Hab [Ha Hb]] Hlt]. split; [|exact Hlt].
    now apply two_pair_partition.
Qed.

Lemma five_two_pairs_none :
  is_two_pairs cs = None <->
  forall a b, a <> b -> ~ (rank_mult a cs = 2 /\ rank_mult b cs = 2).
Proof.
  destruct (is_two_pairs cs) as [[a b]|] eqn:E.
  - split; [discriminate|]. intro H. exfalso.
    apply five_two_pairs_some in E. destruct E as [[Hab Hm] _].
    now apply (H a b).
  - split; [|reflexivity]. intros _ a b Hab [Ha Hb].
    pose proof (@two_pair_partition cs a b Hlen Hab Ha Hb) as Hr.
    destruct (two_pair_ranks_order Hr) as [Hlt|Hlt].
    + assert (is_two_pairs cs = Some (a, b)) by now apply is_two_pairs_some.
      congruence.
    + assert (is_two_pairs cs = Some (b, a)).
      { apply is_two_pairs_some. split; [now apply two_pair_ranks_sym|exact Hlt]. }
      congruence.
Qed.

(** Without a pair for [is_one_pair] and without two pairs for
    [is_two_pairs] no rank occurs twice. *)
Lemma five_no_pair (x : CardRank) :
  is_two_pairs cs = None -> is_one_pair cs = None -> rank_mult x cs <> 2.
Proof.
  intros Htp Hop Hx.
  destruct (is_one_pair cs) as [r|] eqn:E; [discriminate|]. clear Hop.
  assert (Hnot : ~ only_rank_of_mult 2 cs x).
  { intro H. apply is_one_pair_some in H. congruence. }
  apply Hnot. split; [exact Hx|]. intros y Hy.
  destruct (CardRank_eq_dec y x) as [|Hn]; [assumption|].
  exfalso. now apply (proj1 five_two_pairs_none Htp y x Hn).
Qed.
End FiveCards.

(** X20. [evaluate] prints a straight flush, with the highest rank, exactly for
    the hands of five cards of one suit whose ranks do not repeat and span
    four steps. *)
Theorem evaluate_StraightFlush (cs : list Card) (r : CardRank) :
  length cs = 5 ->
  evaluate cs = Ok [StraightFlush r] <->
  straight_condition cs /\ one_suit cs /\ highest_rank cs r.
Proof.
  intro Hlen.
  rewrite (evaluate_StraightFlush_checks r (hand_nonempty Hlen)).
  now apply (@five_straight_flush_some cs Hlen).
Qed.

(** X21. [evaluate] prints four of a kind of [r] exactly for the hands of five
    cards in which [r] occurs four times. *)
Theorem evaluate_FourOfAKind (cs : list Card) (r : CardRank) :
  length cs = 5 ->
  evaluate cs = Ok [FourOfAKind r] <-> rank_mult r cs = 4.
Proof.
  intro Hlen.
  rewrite (evaluate_FourOfAKind_checks r (hand_nonempty Hlen)).
  rewrite (@is_four_of_a_kind_some cs r Hlen). split; [tauto|].
  intro H. split; [|exact H].
  apply (@five_straight_flush_none cs Hlen). intros [Hs _].
  pose proof (straight_mult r Hs). lia.
Qed.

(** X22. [evaluate] prints a full house of [t] over [p] exactly for the hands of
    five cards in which [t] occurs three times and [p] twice. *)
Theorem evaluate_FullHouse (cs : list Card) (t p : CardRank) :
  length cs = 5 ->
  evaluate cs = Ok [FullHouse t p] <-> rank_mult t cs = 3 /\ rank_mult p cs = 2.
Proof.
  intro Hlen.
  rewrite (evaluate_FullHouse_checks t p (hand_nonempty Hlen)).
  rewrite (@five_full_house_some cs Hlen). split; [tauto|].
  intros [Ht Hp]. split; [|split; [|tauto]].
  - apply (@five_straight_flush_none cs Hlen). intros [Hs _].
    pose proof (straight_mult t Hs). lia.
  - apply (@five_four_none cs Hlen). intros x Hx.
    destruct (CardRank_eq_dec x t) as [->|Hn]; [lia|].
    pose proof (@five_mult_two cs Hlen _ _ Hn). lia.
Qed.

(** In a hand without a card twice, cards of one suit have distinct ranks. *)
Lemma one_suit_distinct_ranks (cs : list Card) :
  NoDup cs -> one_suit cs -> forall r, rank_mult r cs <= 1.
Proof.
  intros Hnd [s Hs] r. unfold rank_mult, mult.
  apply (NoDup_count_occ CardRank_eq_dec). unfold ranks.
  induction Hnd as [|c cs Hc Hnd IH]; simpl; constructor.
  - intro H. apply in_map_iff in H. destruct H as [c' [E Hc']].
    apply Hc. replace c with c'; [exact Hc'|].
    destruct c as [rc sc], c' as [rc' sc']. unfold rank in E. simpl in E.
    pose proof (Hs (rc, sc) (or_introl eq_refl)) as H1.
    pose proof (Hs (rc', sc') (or_intror Hc')) as H2.
    unfold suit in *. simpl in *. congruence.
  - apply IH. intros x Hx. apply Hs. now right.
Qed.

(** X23. [evaluate] prints a flush, with the highest rank, exactly for the hands
    of five cards of one suit that are not a straight and in which no rank
    occurs four times and no two ranks occur three times and twice; in a
    hand without a card twice, exactly for the hands of one suit that are
    not a straight. *)
Theorem evaluate_Flush (cs : list Card) (r : CardRank) :
  length cs = 5 ->
  (evaluate cs = Ok [Flush r] <->
   one_suit cs /\ highest_rank cs r /\ ~ straight_condition cs /\
   (forall x, rank_mult x cs <> 4) /\
   (forall t p, ~ (rank_mult t cs = 3 /\ rank_mult p cs = 2))) /\
  (NoDup cs ->
   (evaluate cs = Ok [Flush r] <->
    one_suit cs /\ highest_rank cs r /\ ~ straight_condition cs)).
Proof.
  intro Hlen. pose proof (hand_nonempty Hlen) as Hne.
  rewrite (evaluate_Flush_checks r Hne).
  rewrite (@five_straight_flush_none cs Hlen), (@five_four_none cs Hlen),
    (@five_full_house_none cs Hlen), (is_flush_some r Hne).
  split; [tauto|]. intro Hnd. split; [tauto|].
  intros [Ho [Hh Hs]].
  pose proof (one_suit_distinct_ranks Hnd Ho) as Hm.
  split; [tauto|]. split; [|split; [|tauto]].
  - intros x Hx. specialize (Hm x). lia.
  - intros t p [Ht _]. specialize (Hm t). lia.
Qed.

(** X24. [evaluate] prints a straight, with the highest rank, exactly for the
    hands of five cards, not all of one suit, whose ranks do not repeat and
    span four steps. *)
Theorem evaluate_Straight (cs : list Card) (r : CardRank) :
  length cs = 5 ->
  evaluate cs = Ok [Straight r] <->
  straight_condition cs /\ highest_rank cs r /\ ~ one_suit cs.
Proof.
  intro Hlen. pose proof (hand_nonempty Hlen) as Hne.
  rewrite (evaluate_Straight_checks r Hne).
  rewrite (@five_straight_flush_none cs Hlen), (@five_four_none cs Hlen),
    (@five_full_house_none cs Hlen), (@five_flush_none cs Hlen), (is_straight_some r Hne).
  split; [tauto|]. intros [Hs [Hh Ho]].
  split; [tauto|]. split; [|split; [|tauto]].
  - intros x Hx. pose proof (straight_mult x Hs). lia.
  - intros t p [Ht _]. pose proof (straight_mult t Hs). lia.
Qed.

(** X25. [evaluate] prints three of a kind of [r] exactly for the hands of five
    cards, not all of one suit, in which [r] occurs three times and no rank
    occurs twice. *)
Theorem evaluate_ThreeOfAKind (cs : list Card) (r : CardRank) :
  length cs = 5 ->
  evaluate cs = Ok [ThreeOfAKind r] <->
  rank_mult r cs = 3 /\ (forall p, rank_mult p cs <> 2) /\ ~ one_suit cs.
Proof.
  intro Hlen. pose proof (hand_nonempty Hlen) as Hne.
  rewrite (evaluate_ThreeOfAKind_checks r Hne).
  rewrite (@five_straight_flush_none cs Hlen), (@five_four_none cs Hlen),
    (@five_full_house_none cs Hlen), (@five_flush_none cs Hlen), (is_straight_none Hne),
    (@is_three_of_a_kind_some cs r Hlen).
  split.
  - intros [_ [_ [Hfh [Ho [_ Hr]]]]].
    split; [exact Hr|]. split; [|exact Ho].
    intros p Hp. now apply (Hfh r p).
  - intros [Hr [Hp Ho]].
    split; [tauto|]. split; [|split; [|split; [exact Ho|split; [|exact Hr]]]].
    + intros x Hx. destruct (CardRank_eq_dec x r) as [->|Hn]; [lia|].
      pose proof (@five_mult_two cs Hlen _ _ Hn). lia.
    + intros t p [_ H2]. now apply (Hp p).
    + intro Hs. pose proof (straight_mult r Hs). lia.
Qed.

(** X26. [evaluate] prints two pairs of [a] and [b] exactly for the hands of
    five cards, not all of one suit, in which the two distinct ranks [a]
    and [b] occur twice and [a] occurs first. *)
Theorem evaluate_TwoPair (cs : list Card) (a b : CardRank) :
  length cs = 5 ->
  evaluate cs = Ok [TwoPair a b] <->
  (a <> b /\ rank_mult a cs = 2 /\ rank_mult b cs = 2) /\
  before (ranks cs) a b /\ ~ one_suit cs.
Proof.
  intro Hlen. pose proof (hand_nonempty Hlen) as Hne.
  rewrite (evaluate_TwoPair_checks a b Hne).
  rewrite (@five_straight_flush_none cs Hlen), (@five_four_none cs Hlen),
    (@five_full_house_none cs Hlen), (@five_flush_none cs Hlen), (is_straight_none Hne),
    (@five_three_none cs Hlen), (@five_two_pairs_some cs Hlen).
  split; [tauto|]. intros [[Hab [Ha Hb]] [Hlt Ho]].
  assert (H3 : forall t, rank_mult t cs <> 3).
  { intros t Ht.
    assert (Hta : t <> a) by (intros ->; lia).
    assert (Htb : t <> b) by (intros ->; lia).
    pose proof (@five_mult_three cs Hlen t a b Hta Htb Hab). lia. }
  split; [tauto|]. split; [|split; [|split; [exact Ho|split; [|split; [exact H3|tauto]]]]].
  - intros x Hx. assert (Hn : x <> a) by (intros ->; lia).
    pose proof (@five_mult_two cs Hlen _ _ Hn). lia.
  - intros t p [Ht _]. now apply (H3 t).
  - intro Hs. pose proof (straight_mult a Hs). lia.
Qed.

(** X27. [evaluate] prints one pair of [r] exactly for the hands of five cards,
    not all of one suit, in which [r] is the only rank that occurs twice
    and no rank occurs three times. *)
Theorem evaluate_OnePair (cs : list Card) (r : CardRank) :
  length cs = 5 ->
  evaluate cs = Ok [OnePair r] <->
  only_rank_of_mult 2 cs r /\ (forall t, rank_mult t cs <> 3) /\ ~ one_suit cs.
Proof.
  intro Hlen. pose proof (hand_nonempty Hlen) as Hne.
  rewrite (evaluate_OnePair_checks r Hne).
  rewrite (@five_straight_flush_none cs Hlen), (@five_four_none cs Hlen),
    (@five_full_house_none cs Hlen), (@five_flush_none cs Hlen), (is_straight_none Hne),
    (@five_three_none cs Hlen), (@five_two_pairs_none cs Hlen), is_one_pair_some.
  split; [tauto|]. intros [[Hr Hu] [H3 Ho]].
  split; [tauto|].
  split; [|split; [|split; [exact Ho|split; [|split; [exact H3|split; [|now split]]]]]].
  - intros x Hx. assert (Hn : x <> r) by (intros ->; lia).
    pose proof (@five_mult_two cs Hlen _ _ Hn). lia.
  - intros t p [Ht _]. now apply (H3 t).
  - intro Hs. pose proof (straight_mult r Hs). lia.
  - intros a b Hab [Ha Hb]. apply Hab. now rewrite (Hu a Ha), (Hu b Hb).
Qed.

(** X28. [evaluate] prints the high card [c] exactly for the hands of five
    cards, not all of one suit and not a straight, in which no rank occurs
    twice, three times or four times; [c] is the card of the hand that no
    card of the hand is above. *)
Theorem evaluate_HighCard (cs : list Card) (c : Card) :
  length cs = 5 ->
  evaluate cs = Ok [HighCard c] <->
  (In c cs /\ forall x, In x cs -> Card_lt c x = false) /\
  ~ one_suit cs /\ ~ straight_condition cs /\
  forall x, rank_mult x cs <> 2 /\ rank_mult x cs <> 3 /\ rank_mult x cs <> 4.
Proof.
  intro Hlen. pose proof (hand_nonempty Hlen) as Hne.
  rewrite (evaluate_HighCard_checks c Hne).
  assert (Hmax : high_card cs = Ok c <->
                 In c cs /\ forall x, In x cs -> Card_lt c x = false).
  { rewrite (high_card_spec c Hne). unfold is_max_card.
    split; intros [Hin H]; (split; [exact Hin|]); intros x Hx;
      apply key_le_Card_lt; now apply H. }
  rewrite Hmax. clear Hmax. split.
  - intros [_ [H4 [_ [Hf [Hs [H3 [Htp [Hop Hc]]]]]]]].
    split; [exact Hc|].
    split; [now apply (@five_flush_none cs Hlen)|].
    split; [now apply (is_straight_none Hne)|].
    intro x. split; [now apply (@five_no_pair cs Hlen)|].
    split; [now apply (@five_three_none cs Hlen) | now apply (@five_four_none cs Hlen)].
  - intros [Hc [Ho [Hs Hm]]].
    split; [apply (@five_straight_flush_none cs Hlen); tauto|].
    split; [apply (@five_four_none cs Hlen); intro x; apply (Hm x)|].
    split; [apply (@five_full_house_none cs Hlen); intros t p [Ht _];
            now apply (proj1 (proj2 (Hm t)))|].
    split; [now apply (@five_flush_none cs Hlen)|].
    split; [now apply (is_straight_none Hne)|].
    split; [apply (@five_three_none cs Hlen); intro x; apply (Hm x)|].
    split; [apply (@five_two_pairs_none cs Hlen); intros a b _ [Ha _];
            now apply (proj1 (Hm a))|].
    split; [|exact Hc].
    destruct (is_one_pair cs) as [r|] eqn:E; [|reflexivity].
    apply is_one_pair_some in E. destruct E as [E _]. now apply (proj1 (Hm r)) in E.
Qed.

(** ** The order and the names of the cards *)

(** X29. The comparison of cards is a strict total order: no card is below
    itself, the comparison is transitive, and of two different cards one is
    below the other. The rank decides, and the suit decides between cards
    of one rank. *)
Theorem Card_lt_order (a b c : Card) :
  Card_lt a a = false /\
  (Card_lt a b = true -> Card_lt b c = true -> Card_lt a c = true) /\
  (a <> b -> Card_lt a b = true \/ Card_lt b a = true) /\
  (CardRank_lt (rank a) (rank b) = true -> Card_lt a b = true) /\
  (rank a = rank b -> Card_lt a b = CardSuit_lt (suit a) (suit b)).
Proof.
  rewrite !Card_lt_key. split; [apply Z.ltb_irrefl|].
  split; [rewrite !Z.ltb_lt; lia|].
  split.
  - intro Hab. rewrite !Z.ltb_lt.
    assert (card_key a <> card_key b) by (intro E; apply Hab, card_key_inj, E).
    lia.
  - unfold CardRank_lt, CardSuit_lt, card_key.
    pose proof (CardSuit_value_bounds (suit a)).
    pose proof (CardSuit_value_bounds (suit b)).
    split.
    + rewrite !Z.ltb_lt. lia.
    + intros ->.
      destruct (Z.ltb_spec (CardSuit_value (suit a)) (CardSuit_value (suit b)));
        [apply Z.ltb_lt | apply Z.ltb_ge]; lia.
Qed.

Lemma CardRank_str_length (r : CardRank) :
  length (CardRank_str r) = if CardRank_eq_dec r TEN then 2 else 1.
Proof. destruct r; reflexivity. Qed.

Lemma CardRank_str_inj (r r' : CardRank) : CardRank_str r = CardRank_str r' -> r = r'.
Proof.
  destruct r, r'; intro H; try reflexivity; vm_compute in H; discriminate H.
Qed.

Lemma CardSuit_str_inj (s s' : CardSuit) : CardSuit_str s = CardSuit_str s' -> s = s'.
Proof. destruct s, s'; intro H; try reflexivity; discriminate H. Qed.

(** X30. The name of a card tells the card: different cards have different
    names. A name has two characters, but for the tens, whose names have
    three. *)
Theorem Card_str_spec (a b : Card) :
  (Card_str a = Card_str b -> a = b) /\
  length (Card_str a) = if CardRank_eq_dec (rank a) TEN then 3 else 2.
Proof.
  split.
  - destruct a as [r s], b as [r' s']. unfold Card_str. cbn [fst snd]. intro H.
    assert (Hs : CardSuit_str s = CardSuit_str s' /\ CardRank_str r = CardRank_str r').
    { destruct s, s'; cbn [CardSuit_str] in H; apply app_inj_tail in H;
        destruct H as [Hr Hc]; try discriminate Hc; now split. }
    destruct Hs as [Hs Hr].
    apply CardSuit_str_inj in Hs. apply CardRank_str_inj in Hr. congruence.
  - destruct a as [r s]. unfold Card_str, rank. cbn [fst snd].
    rewrite length_app, CardRank_str_length.
    destruct (CardRank_eq_dec r TEN); destruct s; reflexivity.
Qed.

(** ** These theorems at hands and decks of the test suite *)

Lemma deal_cards_twice_witness :
  (0 <= 1)%Z /\ (0 <= 2)%Z /\
  deal_cards 1 six_cards
  = (Ok [(JACK, HEARTS)],
     {| cards := [(ACE, SPADES); (NINE, CLUBS); (NINE, SPADES);
                  (NINE, DIAMONDS); (NINE, HEARTS)] |}) /\
  deal_cards 2 {| cards := [(ACE, SPADES); (NINE, CLUBS); (NINE, SPADES);
                            (NINE, DIAMONDS); (NINE, HEARTS)] |}
  = (Ok [(NINE, HEARTS); (NINE, DIAMONDS)],
     {| cards := [(ACE, SPADES); (NINE, CLUBS); (NINE, SPADES)] |}) /\
  deal_cards (1 + 2) six_cards
  = (Ok ([(JACK, HEARTS)] ++ [(NINE, HEARTS); (NINE, DIAMONDS)]),
     {| cards := [(ACE, SPADES); (NINE, CLUBS); (NINE, SPADES)] |}).
Proof.
  split; [lia|]. split; [lia|]. split; [reflexivity|]. split; [reflexivity|].
  apply (@deal_cards_twice 1 2 six_cards
           {| cards := [(ACE, SPADES); (NINE, CLUBS); (NINE, SPADES);
                        (NINE, DIAMONDS); (NINE, HEARTS)] |}
           {| cards := [(ACE, SPADES); (NINE, CLUBS); (NINE, SPADES)] |}
           [(JACK, HEARTS)] [(NINE, HEARTS); (NINE, DIAMONDS)]);
    [lia | lia | reflexivity | reflexivity].
Defined.

Lemma deal_cards_no_card_witness :
  (-1 <= 0)%Z /\
  deal_cards (-1) {| cards := [] |} =
  if ((-1 =? 0)%Z && (len (cards {| cards := [] |}) =? 0)%Z)%bool
  then (Raise OutOfCards, {| cards := [] |}) else (Ok [], {| cards := [] |}).
Proof.
  split; [lia | apply (@deal_cards_no_card (-1) {| cards := [] |}); lia].
Defined.

Lemma rev_shuffles (l : list Card) : Permutation (rev l) l.
Proof. symmetry. apply Permutation_rev. Qed.

Lemma reset_full_deck_witness :
  (forall l : list Card, Permutation (rev l) l) /\
  length (cards (reset (@rev Card))) = 52 /\
  NoDup (cards (reset (@rev Card))) /\
  forall c, In c (cards (reset (@rev Card))).
Proof.
  split; [exact rev_shuffles | apply (@reset_full_deck (@rev Card)); exact rev_shuffles].
Defined.

Lemma PokerHand_init_spec_witness :
  PokerHand_init six_cards = (Ok (rev four_nines), one_card) /\
  length (rev four_nines) = 5 /\
  cards six_cards = cards one_card ++ rev (rev four_nines) /\
  (NoDup (cards six_cards) ->
   NoDup (rev four_nines) /\ NoDup (cards one_card) /\
   forall c, In c (rev four_nines) -> ~ In c (cards one_card)).
Proof.
  split; [reflexivity|].
  apply (@PokerHand_init_spec six_cards one_card (rev four_nines)). reflexivity.
Defined.

Lemma reset_serves_ten_hands_witness :
  (forall l : list Card, Permutation (rev l) l) /\
  (10 <= 10 -> exists hands d', deal_hands 10 (reset (@rev Card)) = (Ok hands, d') /\
                                length hands = 10) /\
  (10 < 10 -> exists d', deal_hands 10 (reset (@rev Card)) = (Raise OutOfCards, d')).
Proof.
  split; [exact rev_shuffles|].
  apply (@reset_serves_ten_hands (@rev Card) 10). exact rev_shuffles.
Defined.

Lemma five_valid_indices :
  Forall (fun i => (1 <= i <= len four_nines)%Z) [1; 5; 1]%Z.
Proof. repeat constructor; unfold len; simpl; lia. Qed.

Lemma replace_cards_spec_witness :
  Forall (fun i => (1 <= i <= len four_nines)%Z) [1; 5; 1]%Z /\
  length [1; 5; 1]%Z < length (cards six_cards) /\
  exists hand',
    replace_cards four_nines six_cards [1; 5; 1]%Z =
    (Ok tt, (hand', {| cards := firstn (length (cards six_cards) - length [1; 5; 1]%Z)
                                       (cards six_cards) |})) /\
    (forall p, (forall i, In i [1; 5; 1]%Z -> Z.to_nat (i - 1) <> p) ->
               nth_error hand' p = nth_error four_nines p) /\
    (forall j i, nth_error [1; 5; 1]%Z j = Some i ->
                 (forall j', j < j' -> nth_error [1; 5; 1]%Z j' <> Some i) ->
                 nth_error hand' (Z.to_nat (i - 1)) = nth_error (rev (cards six_cards)) j).
Proof.
  split; [exact five_valid_indices|]. split; [simpl; lia|].
  apply (@replace_cards_spec four_nines six_cards [1; 5; 1]%Z);
    [exact five_valid_indices | simpl; lia].
Defined.


Lemma replace_cards_step_witness :
  deal_card six_cards
  = (Ok (JACK, HEARTS),
     {| cards := [(ACE, SPADES); (NINE, CLUBS); (NINE, SPADES);
                  (NINE, DIAMONDS); (NINE, HEARTS)] |}) /\
  replace_cards seven_high six_cards [0%Z] =
  if ((- len seven_high <? 0) && (0 <=? len seven_high))%Z
  then replace_cards
         (with_item seven_high (Z.to_nat ((0 - 1) mod len seven_high)) (JACK, HEARTS))
         {| cards := [(ACE, SPADES); (NINE, CLUBS); (NINE, SPADES);
                      (NINE, DIAMONDS); (NINE, HEARTS)] |} []
  else (Raise IndexError,
        (seven_high,
         {| cards := [(ACE, SPADES); (NINE, CLUBS); (NINE, SPADES);
                      (NINE, DIAMONDS); (NINE, HEARTS)] |})).
Proof.
  split; [reflexivity|].
  apply (@replace_cards_step seven_high six_cards
           {| cards := [(ACE, SPADES); (NINE, CLUBS); (NINE, SPADES);
                        (NINE, DIAMONDS); (NINE, HEARTS)] |}
           (JACK, HEARTS) 0%Z []).
  reflexivity.
Defined.

Lemma evaluate_after_replace_cards_witness :
  PokerHand_init six_cards = (Ok (rev four_nines), one_card) /\
  exists c, evaluate (fst (snd (replace_cards (rev four_nines) one_card [2; 9]%Z)))
            = Ok [c].
Proof.
  split; [reflexivity|].
  apply (@evaluate_after_replace_cards six_cards one_card (rev four_nines) [2; 9]%Z).
  reflexivity.
Defined.

Lemma is_four_of_a_kind_spec_witness :
  length four_nines = 5 /\
  ((forall r, is_four_of_a_kind four_nines = Some r <-> rank_mult r four_nines = 4) /\
   (is_four_of_a_kind four_nines = None <-> forall r, rank_mult r four_nines <> 4)).
Proof.
  split; [reflexivity | apply (@is_four_of_a_kind_spec four_nines); reflexivity].
Defined.

Lemma is_straight_consecutive_witness :
  length seven_high_straight = 5 /\
  is_straight seven_high_straight = Ok (Some SEVEN) /\
  forall k, (0 <= k <= 4)%Z ->
  exists c, In c seven_high_straight /\
            CardRank_value (rank c) = (CardRank_value SEVEN - k)%Z.
Proof.
  split; [reflexivity|]. split; [reflexivity|].
  apply (@is_straight_consecutive seven_high_straight SEVEN); reflexivity.
Defined.

Lemma evaluate_StraightFlush_witness :
  length queen_high_hearts = 5 /\
  (evaluate queen_high_hearts = Ok [StraightFlush QUEEN] <->
   straight_condition queen_high_hearts /\ one_suit queen_high_hearts /\
   highest_rank queen_high_hearts QUEEN).
Proof.
  split; [reflexivity | apply (@evaluate_StraightFlush queen_high_hearts QUEEN); reflexivity].
Defined.

Lemma evaluate_FourOfAKind_witness :
  length four_nines = 5 /\
  (evaluate four_nines = Ok [FourOfAKind NINE] <-> rank_mult NINE four_nines = 4).
Proof.
  split; [reflexivity | apply (@evaluate_FourOfAKind four_nines NINE); reflexivity].
Defined.

Lemma evaluate_FullHouse_witness :
  length treys_over_sixes = 5 /\
  (evaluate treys_over_sixes = Ok [FullHouse TREY SIX] <->
   rank_mult TREY treys_over_sixes = 3 /\ rank_mult SIX treys_over_sixes = 2).
Proof.
  split; [reflexivity | apply (@evaluate_FullHouse treys_over_sixes TREY SIX); reflexivity].
Defined.

Lemma evaluate_Flush_witness :
  length king_high_clubs = 5 /\
  ((evaluate king_high_clubs = Ok [Flush KING] <->
    one_suit king_high_clubs /\ highest_rank king_high_clubs KING /\
    ~ straight_condition king_high_clubs /\
    (forall x, rank_mult x king_high_clubs <> 4) /\
    (forall t p, ~ (rank_mult t king_high_clubs = 3 /\ rank_mult p king_high_clubs = 2))) /\
   (NoDup king_high_clubs ->
    (evaluate king_high_clubs = Ok [Flush KING] <->
     one_suit king_high_clubs /\ highest_rank king_high_clubs KING /\
     ~ straight_condition king_high_clubs))).
Proof.
  split; [reflexivity | apply (@evaluate_Flush king_high_clubs KING); reflexivity].
Defined.

Lemma evaluate_Straight_witness :
  length seven_high_straight = 5 /\
  (evaluate seven_high_straight = Ok [Straight SEVEN] <->
   straight_condition seven_high_straight /\ highest_rank seven_high_straight SEVEN /\
   ~ one_suit seven_high_straight).
Proof.
  split; [reflexivity | apply (@evaluate_Straight seven_high_straight SEVEN); reflexivity].
Defined.

Lemma evaluate_ThreeOfAKind_witness :
  length three_sevens = 5 /\
  (evaluate three_sevens = Ok [ThreeOfAKind SEVEN] <->
   rank_mult SEVEN three_sevens = 3 /\ (forall p, rank_mult p three_sevens <> 2) /\
   ~ one_suit three_sevens).
Proof.
  split; [reflexivity | apply (@evaluate_ThreeOfAKind three_sevens SEVEN); reflexivity].
Defined.

Lemma evaluate_TwoPair_witness :
  length sevens_and_fours = 5 /\
  (evaluate sevens_and_fours = Ok [TwoPair SEVEN FOUR] <->
   (SEVEN <> FOUR /\ rank_mult SEVEN sevens_and_fours = 2 /\
    rank_mult FOUR sevens_and_fours = 2) /\
   before (ranks sevens_and_fours) SEVEN FOUR /\ ~ one_suit sevens_and_fours).
Proof.
  split; [reflexivity | apply (@evaluate_TwoPair sevens_and_fours SEVEN FOUR); reflexivity].
Defined.

Lemma evaluate_OnePair_witness :
  length pair_of_sevens = 5 /\
  (evaluate pair_of_sevens = Ok [OnePair SEVEN] <->
   only_rank_of_mult 2 pair_of_sevens SEVEN /\
   (forall t, rank_mult t pair_of_sevens <> 3) /\ ~ one_suit pair_of_sevens).
Proof.
  split; [reflexivity | apply (@evaluate_OnePair pair_of_sevens SEVEN); reflexivity].
Defined.

Lemma evaluate_HighCard_witness :
  length seven_high = 5 /\
  (evaluate seven_high = Ok [HighCard (SEVEN, CLUBS)] <->
   (In (SEVEN, CLUBS) seven_high /\
    forall x, In x seven_high -> Card_lt (SEVEN, CLUBS) x = false) /\
   ~ one_suit seven_high /\ ~ straight_condition seven_high /\
   forall x, rank_mult x seven_high <> 2 /\ rank_mult x seven_high <> 3 /\
             rank_mult x seven_high <> 4).
Proof.
  split; [reflexivity | apply (@evaluate_HighCard seven_high (SEVEN, CLUBS)); reflexivity].
Defined.
